(** * google-mcp-server client scripts: a shallow embedding

    The repository's three Python scripts drive an external MCP server over
    newline-delimited JSON on a child process's standard streams:

    - [create_claude_doc.py]  one child per request, [communicate];
    - [test_mcp.py]           one child for the whole run, [try]/[finally];
    - [test_multi_account.py] one child per request, [readline]/[terminate].

    Python values are embedded as the type [json]; Python's [str] is a list
    of Unicode code points; exceptions are the error side of [result]; the
    child processes and the file system are a tape of replies consumed by
    the scripts' I/O operations, which also append to an event log. *)

From Stdlib Require Import Ascii String List ZArith NArith Bool Lia.
From Stdlib Require DecimalFacts DecimalPos DecimalZ.
Import ListNotations.
Local Open Scope N_scope.

(* ===================================================================== *)
(** * Python values                                                       *)
(* ===================================================================== *)

Module Py.

(** A character is a code point; a [str] a sequence of them. *)
Abbreviation char := N.
Abbreviation str := (list N).

(** The text of a source literal. *)
Definition lit (s : string) : str :=
  map N_of_ascii (list_ascii_of_string s).

Fixpoint str_eqb (a b : str) : bool :=
  match a, b with
  | [], [] => true
  | x :: a', y :: b' => (x =? y) && str_eqb a' b'
  | _, _ => false
  end.

(** Exceptions the scripts can meet. [KeyboardInterrupt] is the only one
    that is not a subclass of [Exception]. *)
Inductive exn :=
| JSONDecodeError | AttributeError | TypeError | KeyError | IndexError
| FileNotFoundError | OSError | BrokenPipeError | TimeoutExpired
| KeyboardInterrupt.

Definition is_Exception (e : exn) : bool :=
  match e with KeyboardInterrupt => false | _ => true end.

Definition is_JSONDecodeError (e : exn) : bool :=
  match e with JSONDecodeError => true | _ => false end.

Inductive result (A : Type) :=
| Ok (a : A)
| Raise (e : exn).
Arguments Ok {A} a.
Arguments Raise {A} e.

Definition rbind {A B} (r : result A) (k : A -> result B) : result B :=
  match r with Ok a => k a | Raise e => Raise e end.

(** Values: [None], [bool], [int], [float], [str], [list], [dict].  A dict
    keeps insertion order and has [str] keys.  A float is carried as the
    text of its literal and is never evaluated. *)
Unset Elimination Schemes.
Inductive json :=
| JNull
| JBool (b : bool)
| JInt (z : Z)
| JFloat (literal : str)
| JStr (s : str)
| JArr (items : list json)
| JObj (members : list (str * json)).
Set Elimination Schemes.

(** [d.get(k)] on the members of a dict. *)
Fixpoint dict_get (k : str) (d : list (str * json)) : option json :=
  match d with
  | [] => None
  | (k', v) :: d' => if str_eqb k k' then Some v else dict_get k d'
  end.

Definition dict_has (k : str) (d : list (str * json)) : bool :=
  match dict_get k d with Some _ => true | None => false end.

(** [d[k] = v]: an existing key keeps its place, a new one goes last. *)
Fixpoint dict_set (k : str) (v : json) (d : list (str * json))
  : list (str * json) :=
  match d with
  | [] => [(k, v)]
  | (k', v') :: d' =>
      if str_eqb k k' then (k, v) :: d' else (k', v') :: dict_set k v d'
  end.

(** [dict(pairs)] *)
Definition dict_of_pairs (pairs : list (str * json)) : list (str * json) :=
  fold_left (fun d kv => dict_set (fst kv) (snd kv) d) pairs [].

(** [x == s] for a [str] constant [s]. *)
Definition eq_str (x : json) (s : str) : bool :=
  match x with JStr t => str_eqb t s | _ => false end.

Fixpoint is_prefix (p s : str) : bool :=
  match p, s with
  | [], _ => true
  | x :: p', y :: s' => (x =? y) && is_prefix p' s'
  | _ :: _, [] => false
  end.

(** [p in s] for two strings. *)
Fixpoint is_substring (p s : str) : bool :=
  is_prefix p s ||
  match s with
  | [] => false
  | _ :: s' => is_substring p s'
  end.

(** A float literal denotes zero when its mantissa has no non-zero digit
    (the literal is taken at face value). *)
Fixpoint mantissa_zero (l : str) : bool :=
  match l with
  | [] => true
  | c :: l' =>
      if (c =? 101) || (c =? 69) then true            (* e E *)
      else if (49 <=? c) && (c <=? 57) then false     (* 1..9 *)
      else if (c =? 78) || (c =? 73) then false       (* NaN, Infinity *)
      else mantissa_zero l'
  end.

(** Truth value, as tested by [if x] and [not x]. *)
Definition truthy (x : json) : bool :=
  match x with
  | JNull => false
  | JBool b => b
  | JInt z => negb (Z.eqb z 0)
  | JFloat l => negb (mantissa_zero l)
  | JStr s => match s with [] => false | _ => true end
  | JArr l => match l with [] => false | _ => true end
  | JObj d => match d with [] => false | _ => true end
  end.

(** [k in x] for a [str] constant [k]. *)
Definition contains (k : str) (x : json) : result bool :=
  match x with
  | JObj d => Ok (dict_has k d)
  | JArr l => Ok (existsb (fun y => eq_str y k) l)
  | JStr s => Ok (is_substring k s)
  | _ => Raise TypeError
  end.

(** [x.get(k, default)] *)
Definition get (x : json) (k : str) (default : json) : result json :=
  match x with
  | JObj d => Ok (match dict_get k d with Some v => v | None => default end)
  | _ => Raise AttributeError
  end.

(** [x[k]] for a [str] constant [k]. *)
Definition getitem (x : json) (k : str) : result json :=
  match x with
  | JObj d => match dict_get k d with Some v => Ok v | None => Raise KeyError end
  | _ => Raise TypeError
  end.

(** [x[0]] *)
Definition getitem0 (x : json) : result json :=
  match x with
  | JArr l => match l with v :: _ => Ok v | [] => Raise IndexError end
  | JStr s => match s with c :: _ => Ok (JStr [c]) | [] => Raise IndexError end
  | JObj _ => Raise KeyError
  | _ => Raise TypeError
  end.

(** [len(x)] *)
Definition len (x : json) : result nat :=
  match x with
  | JArr l => Ok (length l)
  | JStr s => Ok (length s)
  | JObj d => Ok (length d)
  | _ => Raise TypeError
  end.

(** The items a [for] loop over [x] visits. *)
Definition iter (x : json) : result (list json) :=
  match x with
  | JArr l => Ok l
  | JObj d => Ok (map (fun kv => JStr (fst kv)) d)
  | JStr s => Ok (map (fun c => JStr [c]) s)
  | _ => Raise TypeError
  end.

Definition isinstance_dict (x : json) : bool :=
  match x with JObj _ => true | _ => false end.

Definition isinstance_list (x : json) : bool :=
  match x with JArr _ => true | _ => false end.

(** [str.isspace] on one character. *)
Definition isspace (c : char) : bool :=
  ((9 <=? c) && (c <=? 13)) || ((28 <=? c) && (c <=? 32))
  || (c =? 133) || (c =? 160) || (c =? 5760)
  || ((8192 <=? c) && (c <=? 8202))
  || (c =? 8232) || (c =? 8233) || (c =? 8239) || (c =? 8287)
  || (c =? 12288).

Fixpoint lstrip (s : str) : str :=
  match s with
  | c :: s' => if isspace c then lstrip s' else s
  | [] => []
  end.

(** [s.strip()] *)
Definition strip (s : str) : str := rev (lstrip (rev (lstrip s))).

End Py.

(* ===================================================================== *)
(** * The [json] library: [json.dumps] and [json.loads]                   *)
(* ===================================================================== *)

Module Json.
Import Py.

(** Source text that contains double quotes, written with apostrophes. *)
Definition jlit (s : string) : str :=
  map (fun c => if c =? 39 then 34 else c) (lit s).

(** ** Encoding *)

Definition hex_digit (d : N) : char :=
  if d <? 10 then 48 + d else 87 + d.

(** ['\\u{0:04x}'.format(n)] *)
Definition u_escape (n : N) : str :=
  [92; 117; hex_digit (n / 4096 mod 16); hex_digit (n / 256 mod 16);
   hex_digit (n / 16 mod 16); hex_digit (n mod 16)].

(** One character of [encode_basestring_ascii]. *)
Definition escape_char (c : char) : str :=
  if c =? 34 then [92; 34]
  else if c =? 92 then [92; 92]
  else if c =? 10 then [92; 110]
  else if c =? 13 then [92; 114]
  else if c =? 9 then [92; 116]
  else if c =? 8 then [92; 98]
  else if c =? 12 then [92; 102]
  else if (32 <=? c) && (c <=? 126) then [c]
  else if c <? 65536 then u_escape c
  else
    let n := c - 65536 in
    let s1 := N.lor 55296 (N.land (N.shiftr n 10) 1023) in
    let s2 := N.lor 56320 (N.land n 1023) in
    u_escape s1 ++ u_escape s2.

Definition encode_string (s : str) : str :=
  34 :: flat_map escape_char s ++ [34].

Fixpoint digits_of_uint (u : Decimal.uint) : str :=
  match u with
  | Decimal.Nil => []
  | Decimal.D0 u' => 48 :: digits_of_uint u'
  | Decimal.D1 u' => 49 :: digits_of_uint u'
  | Decimal.D2 u' => 50 :: digits_of_uint u'
  | Decimal.D3 u' => 51 :: digits_of_uint u'
  | Decimal.D4 u' => 52 :: digits_of_uint u'
  | Decimal.D5 u' => 53 :: digits_of_uint u'
  | Decimal.D6 u' => 54 :: digits_of_uint u'
  | Decimal.D7 u' => 55 :: digits_of_uint u'
  | Decimal.D8 u' => 56 :: digits_of_uint u'
  | Decimal.D9 u' => 57 :: digits_of_uint u'
  end.

(** [int.__repr__] *)
Definition repr_int (z : Z) : str :=
  match Z.to_int z with
  | Decimal.Pos u => digits_of_uint u
  | Decimal.Neg u => 45 :: digits_of_uint u
  end.

Fixpoint join (sep : str) (l : list str) : str :=
  match l with
  | [] => []
  | [x] => x
  | x :: l' => x ++ sep ++ join sep l'
  end.

(** [json.dumps(v)]: separators [", "] and [": "], [ensure_ascii]. *)
Fixpoint json_dumps (v : json) : str :=
  match v with
  | JNull => lit "null"
  | JBool true => lit "true"
  | JBool false => lit "false"
  | JInt z => repr_int z
  | JFloat l => l
  | JStr s => encode_string s
  | JArr l => 91 :: join (lit ", ") (map json_dumps l) ++ [93]
  | JObj d =>
      123 :: join (lit ", ")
               (map (fun kv => encode_string (fst kv) ++ lit ": "
                                 ++ json_dumps (snd kv)) d) ++ [125]
  end.

(** ** Decoding *)

Definition is_ws (c : char) : bool :=
  (c =? 32) || (c =? 9) || (c =? 10) || (c =? 13).

Fixpoint skip_ws (s : str) : str :=
  match s with
  | c :: s' => if is_ws c then skip_ws s' else s
  | [] => []
  end.

Definition is_digit (c : char) : bool := (48 <=? c) && (c <=? 57).

Definition hex_val (c : char) : option N :=
  if is_digit c then Some (c - 48)
  else if (97 <=? c) && (c <=? 102) then Some (c - 87)
  else if (65 <=? c) && (c <=? 70) then Some (c - 55)
  else None.

(** The four hex digits of a [\uXXXX] escape. *)
Definition decode_hex4 (a b c d : char) : option N :=
  match hex_val a, hex_val b, hex_val c, hex_val d with
  | Some x, Some y, Some z, Some w => Some (((x * 16 + y) * 16 + z) * 16 + w)
  | _, _, _, _ => None
  end.

(** The [BACKSLASH] table. *)
Definition unescape (e : char) : option char :=
  if e =? 34 then Some 34
  else if e =? 92 then Some 92
  else if e =? 47 then Some 47
  else if e =? 98 then Some 8
  else if e =? 102 then Some 12
  else if e =? 110 then Some 10
  else if e =? 114 then Some 13
  else if e =? 116 then Some 9
  else None.

Definition is_high_surrogate (u : N) : bool := (55296 <=? u) && (u <=? 56319).
Definition is_low_surrogate (u : N) : bool := (56320 <=? u) && (u <=? 57343).

Definition push {A} (c : char) (r : option (str * A)) : option (str * A) :=
  match r with
  | Some (t, rest) => Some (c :: t, rest)
  | None => None
  end.

(** [scanstring], strict: the text after the opening quote, to the string
    and the text after the closing quote. *)
Fixpoint scanstring (s : str) : option (str * str) :=
  match s with
  | [] => None
  | c :: r =>
      if c =? 34 then Some ([], r)
      else if c <? 32 then None
      else if c =? 92 then
        match r with
        | [] => None
        | e :: r1 =>
            if e =? 117 then
              match r1 with
              | a :: b :: c' :: d :: r2 =>
                  match decode_hex4 a b c' d with
                  | None => None
                  | Some uni =>
                      if is_high_surrogate uni then
                        match r2 with
                        | bs :: u :: r3 =>
                            if (bs =? 92) && (u =? 117) then
                              match r3 with
                              | a2 :: b2 :: c2 :: d2 :: r4 =>
                                  match decode_hex4 a2 b2 c2 d2 with
                                  | None => None
                                  | Some uni2 =>
                                      if is_low_surrogate uni2 then
                                        push (65536 + N.lor (N.shiftl (uni - 55296) 10)
                                                           (uni2 - 56320))
                                             (scanstring r4)
                                      else push uni (scanstring r2)
                                  end
                              | _ => None
                              end
                            else push uni (scanstring r2)
                        | _ => push uni (scanstring r2)
                        end
                      else push uni (scanstring r2)
                  end
              | _ => None
              end
            else
              match unescape e with
              | None => None
              | Some ch => push ch (scanstring r1)
              end
        end
      else push c (scanstring r)
  end.

Fixpoint span_digits (s : str) : str * str :=
  match s with
  | c :: r =>
      if is_digit c then let (d, r') := span_digits r in (c :: d, r')
      else ([], s)
  | [] => ([], [])
  end.

Fixpoint uint_of_digits (s : str) : Decimal.uint :=
  match s with
  | [] => Decimal.Nil
  | c :: s' =>
      let u := uint_of_digits s' in
      if c =? 48 then Decimal.D0 u else if c =? 49 then Decimal.D1 u
      else if c =? 50 then Decimal.D2 u else if c =? 51 then Decimal.D3 u
      else if c =? 52 then Decimal.D4 u else if c =? 53 then Decimal.D5 u
      else if c =? 54 then Decimal.D6 u else if c =? 55 then Decimal.D7 u
      else if c =? 56 then Decimal.D8 u else Decimal.D9 u
  end.

(** [int(text)] for a text matched by the integer part of [NUMBER_RE]. *)
Definition int_of_text (t : str) : Z :=
  match t with
  | c :: t' => if c =? 45 then Z.of_int (Decimal.Neg (uint_of_digits t'))
               else Z.of_int (Decimal.Pos (uint_of_digits t))
  | [] => 0%Z
  end.

(** The integer part of [NUMBER_RE]: an optional minus sign, then a
    single zero or a non-zero digit followed by digits. *)
Definition match_integer (s : str) : option (str * str) :=
  let (sign, s1) :=
    match s with
    | c :: r => if c =? 45 then ([45], r) else ([], s)
    | [] => ([], s)
    end in
  match s1 with
  | c :: r =>
      if c =? 48 then Some (sign ++ [48], r)
      else if is_digit c then
        let (d, r') := span_digits r in Some (sign ++ c :: d, r')
      else None
  | [] => None
  end.

(** The optional fraction of [NUMBER_RE]: a dot and one or more digits. *)
Definition match_frac (s : str) : str * str :=
  match s with
  | c :: r =>
      if c =? 46 then
        match span_digits r with
        | ([], _) => ([], s)
        | (d, r') => (c :: d, r')
        end
      else ([], s)
  | [] => ([], s)
  end.

(** The optional exponent of [NUMBER_RE]: e or E, an optional sign, and
    one or more digits. *)
Definition match_exp (s : str) : str * str :=
  match s with
  | c :: r =>
      if (c =? 101) || (c =? 69) then
        let (sg, r1) :=
          match r with
          | x :: r0 => if (x =? 45) || (x =? 43) then ([x], r0) else ([], r)
          | [] => ([], r)
          end in
        match span_digits r1 with
        | ([], _) => ([], s)
        | (d, r') => (c :: sg ++ d, r')
        end
      else ([], s)
  | [] => ([], s)
  end.

(** [match_number]: an [int] when neither fraction nor exponent matched. *)
Definition match_number (s : str) : option (json * str) :=
  match match_integer s with
  | None => None
  | Some (i, r) =>
      let (fr, r1) := match_frac r in
      let (ex, r2) := match_exp r1 in
      match fr, ex with
      | [], [] => Some (JInt (int_of_text i), r2)
      | _, _ => Some (JFloat (i ++ fr ++ ex), r2)
      end
  end.

Fixpoint strip_prefix (p s : str) : option str :=
  match p, s with
  | [], _ => Some s
  | x :: p', y :: s' => if x =? y then strip_prefix p' s' else None
  | _ :: _, [] => None
  end.

(** The loop of [JSONArray]; [s] starts at a value. *)
Fixpoint parse_elems (pv : str -> option (json * str)) (n : nat) (s : str)
  : option (list json * str) :=
  match n with
  | O => None
  | S n' =>
      match pv s with
      | None => None
      | Some (v, r) =>
          match skip_ws r with
          | c :: r' =>
              if c =? 93 then Some ([v], r')
              else if c =? 44 then
                match parse_elems pv n' (skip_ws r') with
                | Some (vs, r'') => Some (v :: vs, r'')
                | None => None
                end
              else None
          | [] => None
          end
      end
  end.

(** The loop of [JSONObject]; [s] starts at the quote that opens a key. *)
Fixpoint parse_members (pv : str -> option (json * str)) (n : nat) (s : str)
  : option (list (str * json) * str) :=
  match n with
  | O => None
  | S n' =>
      match s with
      | q :: r0 =>
          if q =? 34 then
            match scanstring r0 with
            | None => None
            | Some (k, r1) =>
                match skip_ws r1 with
                | c :: r2 =>
                    if c =? 58 then
                      match pv (skip_ws r2) with
                      | None => None
                      | Some (v, r3) =>
                          match skip_ws r3 with
                          | d :: r4 =>
                              if d =? 125 then Some ([(k, v)], r4)
                              else if d =? 44 then
                                match parse_members pv n' (skip_ws r4) with
                                | Some (kvs, r5) => Some ((k, v) :: kvs, r5)
                                | None => None
                                end
                              else None
                          | [] => None
                          end
                      end
                    else None
                | [] => None
                end
            end
          else None
      | [] => None
      end
  end.

(** [scan_once]. *)
Fixpoint parse_value (fuel : nat) (s : str) : option (json * str) :=
  match fuel with
  | O => None
  | S f =>
      match s with
      | [] => None
      | c :: r =>
          if c =? 34 then
            match scanstring r with
            | Some (t, r') => Some (JStr t, r')
            | None => None
            end
          else if c =? 123 then
            match skip_ws r with
            | d :: r' =>
                if d =? 125 then Some (JObj [], r')
                else
                  match parse_members (parse_value f) f (skip_ws r) with
                  | Some (kvs, r'') => Some (JObj (dict_of_pairs kvs), r'')
                  | None => None
                  end
            | [] => None
            end
          else if c =? 91 then
            match skip_ws r with
            | d :: r' =>
                if d =? 93 then Some (JArr [], r')
                else
                  match parse_elems (parse_value f) f (skip_ws r) with
                  | Some (vs, r'') => Some (JArr vs, r'')
                  | None => None
                  end
            | [] => None
            end
          else
            match strip_prefix (lit "null") s with
            | Some r' => Some (JNull, r')
            | None =>
            match strip_prefix (lit "true") s with
            | Some r' => Some (JBool true, r')
            | None =>
            match strip_prefix (lit "false") s with
            | Some r' => Some (JBool false, r')
            | None =>
            match match_number s with
            | Some x => Some x
            | None =>
            match strip_prefix (lit "NaN") s with
            | Some r' => Some (JFloat (lit "NaN"), r')
            | None =>
            match strip_prefix (lit "Infinity") s with
            | Some r' => Some (JFloat (lit "Infinity"), r')
            | None =>
            match strip_prefix (lit "-Infinity") s with
            | Some r' => Some (JFloat (lit "-Infinity"), r')
            | None => None
            end end end end end end end
      end
  end.

(** [json.loads(s)] for a [str]. *)
Definition json_loads (s : str) : result json :=
  match parse_value (S (length s)) (skip_ws s) with
  | Some (v, r) =>
      match skip_ws r with
      | [] => Ok v
      | _ :: _ => Raise JSONDecodeError
      end
  | None => Raise JSONDecodeError
  end.

(** [json.loads(x)] for any value: only a [str] is accepted. *)
Definition loads (x : json) : result json :=
  match x with
  | JStr s => json_loads s
  | _ => Raise TypeError
  end.

End Json.

(* ===================================================================== *)
(** * Processes and files: a tape of replies and a log of events          *)
(* ===================================================================== *)

Module IO.
Import Py.

(** What a script does to the outside world, in order. *)
Inductive event :=
| EOpen                                 (* open("CLAUDE.md").read() *)
| ESleep                                (* time.sleep(1) *)
| ESpawn (pid : nat)                    (* subprocess.Popen *)
| ECommunicate (pid : nat) (input : str)
| EWrite (pid : nat) (data : str)       (* process.stdin.write *)
| EFlush (pid : nat)                    (* process.stdin.flush *)
| EReadline (pid : nat)                 (* process.stdout.readline *)
| ETerminate (pid : nat)
| EWait (pid : nat)                     (* process.wait(timeout=5) *)
| EKill (pid : nat).

(** What the outside world answers to one operation. *)
Inductive reply :=
| RDone                                 (* completed, nothing returned *)
| RText (s : str)                       (* file contents, or a line *)
| ROutput (stdout stderr : str)         (* what communicate collected *)
| RRaise (e : exn).

Record world := World {
  tape : list reply;      (* replies still to come *)
  log : list event;       (* events so far, oldest first *)
  spawned : nat           (* children started so far *)
}.

Definition M (A : Type) := world -> result A * world.

Definition ret {A} (a : A) : M A := fun w => (Ok a, w).
Definition lift {A} (r : result A) : M A := fun w => (r, w).

Definition bind {A B} (c : M A) (k : A -> M B) : M B :=
  fun w => match c w with
           | (Ok a, w') => k a w'
           | (Raise e, w') => (Raise e, w')
           end.

(** [try: c / except <catches>: h] *)
Definition try_except {A} (c : M A) (catches : exn -> bool) (h : M A) : M A :=
  fun w => match c w with
           | (Ok a, w') => (Ok a, w')
           | (Raise e, w') => if catches e then h w' else (Raise e, w')
           end.

(** [try: c / finally: f] *)
Definition try_finally {A} (c : M A) (f : M unit) : M A :=
  fun w => match c w with
           | (r, w') =>
               match f w' with
               | (Ok _, w'') => (r, w'')
               | (Raise e, w'') => (Raise e, w'')
               end
           end.

(** One operation: it is logged, takes the next reply from the tape, and
    reads it with [read]; a reply of the wrong kind, or none at all, is the
    operating system failing the operation. *)
Definition perform {A} (ev : event) (read : reply -> result A) : M A :=
  fun w =>
    let w' := fun t => World t (log w ++ [ev]) (spawned w) in
    match tape w with
    | [] => (Raise OSError, w' [])
    | r :: t => (read r, w' t)
    end.

Definition expect_done (r : reply) : result unit :=
  match r with RDone => Ok tt | RRaise e => Raise e | _ => Raise OSError end.

Definition expect_text (r : reply) : result str :=
  match r with RText s => Ok s | RRaise e => Raise e | _ => Raise OSError end.

Definition expect_output (r : reply) : result (str * str) :=
  match r with
  | ROutput out err => Ok (out, err)
  | RRaise e => Raise e
  | _ => Raise OSError
  end.

(** A signal sent to a child: logged, and never an error (a child that is
    already gone is not signalled). *)
Definition signal (ev : event) : M unit :=
  fun w => (Ok tt, World (tape w) (log w ++ [ev]) (spawned w)).

Definition open_read : M str := perform EOpen expect_text.

Definition sleep : M unit := perform ESleep expect_done.

(** [subprocess.Popen(["./google-mcp-server"], ...)]: a child is started
    only when the call does not raise. *)
Definition Popen : M nat :=
  fun w =>
    match tape w with
    | RDone :: t =>
        (Ok (spawned w), World t (log w ++ [ESpawn (spawned w)]) (S (spawned w)))
    | RRaise e :: t => (Raise e, World t (log w) (spawned w))
    | _ :: t => (Raise OSError, World t (log w) (spawned w))
    | [] => (Raise OSError, w)
    end.

Definition communicate (pid : nat) (input : str) : M (str * str) :=
  perform (ECommunicate pid input) expect_output.

Definition stdin_write (pid : nat) (data : str) : M unit :=
  perform (EWrite pid data) expect_done.

Definition stdin_flush (pid : nat) : M unit := perform (EFlush pid) expect_done.

Definition stdout_readline (pid : nat) : M str :=
  perform (EReadline pid) expect_text.

Definition terminate (pid : nat) : M unit := signal (ETerminate pid).

Definition wait (pid : nat) : M unit := perform (EWait pid) expect_done.

Definition kill (pid : nat) : M unit := signal (EKill pid).

(** A script started on a tape. *)
Definition start (t : list reply) : world := World t [] 0.

(** The exit status of [sys.exit(main())], or of a script that ends by
    itself ([Ok] of no status is 0): an uncaught exception ends the
    interpreter with status 1, an uncaught interrupt with 130. *)
Definition exit_status (r : result Z) : Z :=
  match r with
  | Ok n => n
  | Raise KeyboardInterrupt => 130
  | Raise _ => 1
  end.

End IO.

Declare Scope io_scope.
Delimit Scope io_scope with io.
Notation "x <- c ;; k" := (IO.bind c (fun x => k))
  (at level 61, c at next level, right associativity) : io_scope.
Notation "c ;; k" := (IO.bind c (fun _ => k))
  (at level 61, right associativity) : io_scope.
Notation "x <~ r ;; k" := (Py.rbind r (fun x => k))
  (at level 61, r at next level, right associativity) : io_scope.

(* ===================================================================== *)
(** * create_claude_doc.py                                                *)
(* ===================================================================== *)

Module CreateClaudeDoc.
Import Py Json IO.
Local Open Scope io_scope.

(** The request dictionary of [send_mcp_request]: [params] is added
    under [if params:]. *)
Definition build_request (method : str) (params : json) : json :=
  let request := [(lit "jsonrpc", JStr (lit "2.0"));
                  (lit "id", JInt 1);
                  (lit "method", JStr method)] in
  JObj (if truthy params then dict_set (lit "params") params request
        else request).

(** [request_str = json.dumps(request) + "\n"] *)
Definition request_str (request : json) : str := json_dumps request ++ [10].

(** What [send_mcp_request] makes of the child's collected output. *)
Definition read_output (stdout stderr : str) : result json :=
  if truthy (JStr stderr) then Ok JNull
  else
    match json_loads (strip stdout) with
    | Ok response => Ok response
    | Raise e => if is_JSONDecodeError e then Ok JNull else Raise e
    end.

(** [send_mcp_request(method, params=None)]; [None] is [JNull]. *)
Definition send_mcp_request (method : str) (params : json) : M json :=
  let request := build_request method params in
  process <- Popen ;;
  out <- communicate process (request_str request) ;;
  lift (read_output (fst out) (snd out)).

(** [not response or "error" in response] *)
Definition failed (response : json) : result bool :=
  if negb (truthy response) then Ok true
  else contains (lit "error") response.

(** The body of an [if not response or "error" in response:] branch of
    [main]: the diagnostic reads [response.get('error', ...)] when the
    response is truthy, and the branch returns 1. *)
Definition report_failure (response : json) : result Z :=
  if truthy response then
    _ <~ get response (lit "error") (JStr (lit "Unknown error")) ;; Ok 1%Z
  else Ok 1%Z.

(** The [for item in content:] loop of [main]: the value left in
    [document_id]. *)
Fixpoint document_id_loop (items : list json) : result json :=
  match items with
  | [] => Ok JNull
  | item :: rest =>
      ty <~ get item (lit "type") JNull ;;
      if eq_str ty (lit "text") then
        text <~ get item (lit "text") (JStr (lit "{}")) ;;
        match loads text with
        | Ok doc_data => get doc_data (lit "documentId") JNull   (* break *)
        | Raise e =>
            if is_JSONDecodeError e then document_id_loop rest   (* continue *)
            else Raise e
        end
      else document_id_loop rest
  end.

Definition init_params : json :=
  JObj [(lit "protocolVersion", JStr (lit "2024-11-05"));
        (lit "capabilities", JObj [(lit "tools", JObj [])]);
        (lit "clientInfo", JObj [(lit "name", JStr (lit "claude-doc-creator"));
                                 (lit "version", JStr (lit "1.0.0"))])].

Definition create_params : json :=
  JObj [(lit "name", JStr (lit "docs_document_create"));
        (lit "arguments",
         JObj [(lit "title",
                JStr (lit "Claude Code Instructions for Google MCP Server"))])].

Definition format_params (document_id markdown_content : json) : json :=
  JObj [(lit "name", JStr (lit "docs_document_format"));
        (lit "arguments",
         JObj [(lit "document_id", document_id);
               (lit "markdown_content", markdown_content);
               (lit "mode", JStr (lit "replace"))])].

Definition is_FileNotFoundError (e : exn) : bool :=
  match e with FileNotFoundError => true | _ => false end.

(** [main()] once [CLAUDE.md] has been read. *)
Definition main_with (claude_md_content : str) : M Z :=
  init_response <- send_mcp_request (lit "initialize") init_params ;;
  bad <- lift (failed init_response) ;;
  if (bad : bool) then lift (report_failure init_response)
  else
  create_response <- send_mcp_request (lit "tools/call") create_params ;;
  bad <- lift (failed create_response) ;;
  if (bad : bool) then lift (report_failure create_response)
  else
  result <- lift (get create_response (lit "result") (JObj [])) ;;
  content <- lift (get result (lit "content") (JArr [])) ;;
  if negb (truthy content) then ret 1%Z
  else
  items <- lift (iter content) ;;
  document_id <- lift (document_id_loop items) ;;
  if negb (truthy document_id) then ret 1%Z
  else
  format_response <- send_mcp_request (lit "tools/call")
                       (format_params document_id (JStr claude_md_content)) ;;
  bad <- lift (failed format_response) ;;
  if (bad : bool) then lift (report_failure format_response)
  else ret 0%Z.

(** [main()], to the value it returns: a missing [CLAUDE.md] returns 1. *)
Definition main : M Z :=
  file <- try_except (c <- open_read ;; ret (Some c))
                     is_FileNotFoundError (ret None) ;;
  match file with
  | None => ret 1%Z
  | Some claude_md_content => main_with claude_md_content
  end.

(** The script: [sys.exit(main())]. *)
Definition run (t : list reply) : Z := exit_status (fst (main (start t))).

End CreateClaudeDoc.

(* ===================================================================== *)
(** * test_mcp.py                                                         *)
(* ===================================================================== *)

Module TestMcp.
Import Py Json IO.
Local Open Scope io_scope.

(** [read_claude_md()]: [None] when the file is missing. *)
Definition read_claude_md : M json :=
  try_except (c <- open_read ;; ret (JStr c))
             CreateClaudeDoc.is_FileNotFoundError (ret JNull).

(** [send_request(request)], a closure over [process]. *)
Definition send_request (process : nat) (request : json) : M unit :=
  let request_str := json_dumps request ++ [10] in
  stdin_write process request_str ;;
  stdin_flush process.

(** The [if line:] statement of [read_response]: the parsed line, or the
    [None] of the final [return]. *)
Definition read_line (line : str) : result json :=
  if truthy (JStr line) then json_loads (strip line) else Ok JNull.

(** [read_response()], a closure over [process]: every [Exception] of the
    read or of the parse ends in [return None]. *)
Definition read_response (process : nat) : M json :=
  try_except (line <- stdout_readline process ;; lift (read_line line))
             is_Exception (ret JNull).

(** [not response or "error" in response] *)
Definition failed (response : json) : result bool :=
  if negb (truthy response) then Ok true
  else contains (lit "error") response.

(** The document-id block of [main]: [Ok (Some id)] is the value left in
    [document_id], [Ok None] the [return 1] of its [except] clause. *)
Definition extract_document_id (content : json) : result (option json) :=
  nonempty <~ (if truthy content then
                 n <~ len content ;; Ok (Nat.ltb 0 n)
               else Ok false) ;;
  if (nonempty : bool) then
    first <~ getitem0 content ;;
    text_content <~ get first (lit "text") (JStr (lit "{}")) ;;
    match loads text_content with
    | Ok doc_data =>
        document_id <~ get doc_data (lit "documentId") JNull ;;
        Ok (Some document_id)
    | Raise e => if is_JSONDecodeError e then Ok None else Raise e
    end
  else Ok (Some JNull).

Definition init_request : json :=
  JObj [(lit "jsonrpc", JStr (lit "2.0"));
        (lit "id", JInt 1);
        (lit "method", JStr (lit "initialize"));
        (lit "params", CreateClaudeDoc.init_params)].

Definition initialized_notification : json :=
  JObj [(lit "jsonrpc", JStr (lit "2.0"));
        (lit "method", JStr (lit "initialized"))].

Definition tools_request : json :=
  JObj [(lit "jsonrpc", JStr (lit "2.0"));
        (lit "id", JInt 2);
        (lit "method", JStr (lit "tools/list"))].

Definition create_request : json :=
  JObj [(lit "jsonrpc", JStr (lit "2.0"));
        (lit "id", JInt 3);
        (lit "method", JStr (lit "tools/call"));
        (lit "params", CreateClaudeDoc.create_params)].

Definition format_request (document_id claude_content : json) : json :=
  JObj [(lit "jsonrpc", JStr (lit "2.0"));
        (lit "id", JInt 4);
        (lit "method", JStr (lit "tools/call"));
        (lit "params", CreateClaudeDoc.format_params document_id claude_content)].

(** The body of the [try] statement of [main]. *)
Definition try_body (process : nat) (claude_content : json) : M Z :=
  sleep ;;
  send_request process init_request ;;
  init_response <- read_response process ;;
  bad <- lift (failed init_response) ;;
  if (bad : bool) then ret 1%Z
  else
  send_request process initialized_notification ;;
  send_request process tools_request ;;
  tools_response <- read_response process ;;
  send_request process create_request ;;
  create_response <- read_response process ;;
  bad <- lift (failed create_response) ;;
  if (bad : bool) then ret 1%Z
  else
  result <- lift (get create_response (lit "result") (JObj [])) ;;
  content <- lift (get result (lit "content") (JArr [])) ;;
  found <- lift (extract_document_id content) ;;
  match found with
  | None => ret 1%Z
  | Some document_id =>
      if negb (truthy document_id) then ret 1%Z
      else
      send_request process (format_request document_id claude_content) ;;
      format_response <- read_response process ;;
      bad <- lift (failed format_response) ;;
      if (bad : bool) then ret 1%Z
      else ret 0%Z
  end.

Definition is_TimeoutExpired (e : exn) : bool :=
  match e with TimeoutExpired => true | _ => false end.

Definition is_KeyboardInterrupt (e : exn) : bool :=
  match e with KeyboardInterrupt => true | _ => false end.

(** The [finally] clause of [main]. *)
Definition cleanup (process : nat) : M unit :=
  terminate process ;;
  try_except (wait process) is_TimeoutExpired (kill process).

(** [main()], to the value it returns.  The two [except] clauses,
    [KeyboardInterrupt] and [Exception], both return 1. *)
Definition main : M Z :=
  claude_content <- read_claude_md ;;
  if negb (truthy claude_content) then ret 1%Z
  else
  process <- Popen ;;
  try_finally
    (try_except
       (try_except (try_body process claude_content)
                   is_KeyboardInterrupt (ret 1%Z))
       is_Exception (ret 1%Z))
    (cleanup process).

(** The script: [sys.exit(main())]. *)
Definition run (t : list reply) : Z := exit_status (fst (main (start t))).

End TestMcp.

(* ===================================================================== *)
(** * test_multi_account.py                                               *)
(* ===================================================================== *)

Module TestMultiAccount.
Import Py Json IO.
Local Open Scope io_scope.

(** The request dictionary of [send_mcp_request]: ["params": params or {}]. *)
Definition build_request (method : str) (params : json) : json :=
  JObj [(lit "jsonrpc", JStr (lit "2.0"));
        (lit "method", JStr method);
        (lit "params", if truthy params then params else JObj []);
        (lit "id", JInt 1)].

(** [f"Failed to parse response: {response_line}"] *)
Definition parse_failure (response_line : str) : json :=
  JStr (lit "Failed to parse response: " ++ response_line).

(** The [try] statement that ends [send_mcp_request]. *)
Definition parse_response (response_line : str) : result json :=
  match json_loads response_line with
  | Ok response => Ok response
  | Raise e =>
      if is_JSONDecodeError e then
        Ok (JObj [(lit "error", parse_failure response_line)])
      else Raise e
  end.

(** [send_mcp_request(method, params=None)]; [None] is [JNull]. *)
Definition send_mcp_request (method : str) (params : json) : M json :=
  let request := build_request method params in
  process <- Popen ;;
  stdin_write process (json_dumps request ++ [10]) ;;
  stdin_flush process ;;
  response_line <- stdout_readline process ;;
  terminate process ;;
  lift (parse_response response_line).

Definition tool_call (name : string) : json :=
  JObj [(lit "name", JStr (lit name)); (lit "arguments", JObj [])].

(** The [for acc in content["accounts"]:] loop. *)
Fixpoint print_accounts (items : list json) : result unit :=
  match items with
  | [] => Ok tt
  | acc :: rest =>
      _ <~ get acc (lit "email") JNull ;;
      _ <~ get acc (lit "active") JNull ;;
      print_accounts rest
  end.

(** The [else] branch of a call site: the value printed after
    ["Error: "]. *)
Definition report_error (response : json) : result (option json) :=
  e <~ get response (lit "error") (JStr (lit "Unknown error")) ;;
  Ok (Some e).

(** The first call site of [test_accounts_tools]: [Some e] when the error
    [e] is printed, [None] when the result branch runs. *)
Definition report_accounts (response : json) : result (option json) :=
  has_result <~ contains (lit "result") response ;;
  if (has_result : bool) then
    result <~ getitem response (lit "result") ;;
    has_content <~ (if isinstance_dict result
                    then contains (lit "content") result else Ok false) ;;
    if (has_content : bool) then
      c <~ getitem result (lit "content") ;;
      content <~ (if isinstance_list c then
                    first <~ getitem0 c ;;
                    text <~ getitem first (lit "text") ;;
                    loads text
                  else Ok result) ;;
      _ <~ get content (lit "count") (JInt 0) ;;
      has_accounts <~ contains (lit "accounts") content ;;
      if (has_accounts : bool) then
        accounts <~ getitem content (lit "accounts") ;;
        items <~ iter accounts ;;
        _ <~ print_accounts items ;;
        Ok None
      else Ok None
    else Ok None
  else report_error response.

(** The second and third call sites. *)
Definition report (response : json) : result (option json) :=
  has_result <~ contains (lit "result") response ;;
  if (has_result : bool) then Ok None else report_error response.

(** [test_accounts_tools()]: what each of the three call sites printed as
    an error. *)
Definition test_accounts_tools : M (list (option json)) :=
  response <- send_mcp_request (lit "tools/call") (tool_call "accounts_list") ;;
  r1 <- lift (report_accounts response) ;;
  response <- send_mcp_request (lit "tools/call") (tool_call "accounts_details") ;;
  r2 <- lift (report response) ;;
  response <- send_mcp_request (lit "tools/call") (tool_call "calendar_list") ;;
  r3 <- lift (report response) ;;
  ret [r1; r2; r3].

(** The script calls [test_accounts_tools()] and ends: status 0 unless an
    exception is left uncaught. *)
Definition run (t : list reply) : Z :=
  exit_status (_ <~ fst (test_accounts_tools (start t)) ;; Ok 0%Z).

End TestMultiAccount.

(* ===================================================================== *)
(** * Sample lines, responses and tapes                                   *)
(* ===================================================================== *)

Module Samples.
Import Py Json IO.

(** The error line of the specification, as the child would print it. *)
Definition method_not_found_line : str :=
  jlit "{'protocol':'2.0','id':7,'error':{'code':-32601,'message':'Method not found'}}"
  ++ [10].



(** A line that is not JSON. *)
Definition plain_line : str := lit "plain status message".

(** A successful, empty result. *)
Definition empty_result_line : str := jlit "{'jsonrpc':'2.0','id':1,'result':{}}" ++ [10].

(** A content item of the given type whose text is the given string. *)
Definition item (type : string) (text : str) : json :=
  JObj [(lit "type", JStr (lit type)); (lit "text", JStr text)].

(** The nested document that holds document id X. *)
Definition document_X : str := jlit "{'documentId':'X'}".

(** [send_mcp_request] of create_claude_doc.py on a child that prints
    [stdout] and [stderr] and exits. *)
Definition create_doc_call (stdout stderr : str) : result json :=
  fst (CreateClaudeDoc.send_mcp_request (lit "initialize") JNull
         (start [RDone; ROutput stdout stderr])).


(** A create response whose content holds document id X. *)
Definition created_X_line : str :=
  jlit "{'jsonrpc':'2.0','id':1,'result':{'content':[{'type':'text','text':'{\'documentId\':\'X\'}'}]}}"
  ++ [10].

(** The replies to a run of create_claude_doc.py in which every step
    succeeds: the file, then a start and an output for each request. *)
Definition create_doc_tape : list reply :=
  [RText (lit "# CLAUDE.md");
   RDone; ROutput empty_result_line [];
   RDone; ROutput created_X_line [];
   RDone; ROutput empty_result_line []].

(** The replies to a run of test_mcp.py in which the tools/list request
    is answered by a line that is not JSON and every other step succeeds:
    the file, the start, the sleep, then a write, a flush and a line for
    each request (no line for the notification), and the wait. *)
Definition test_mcp_tape : list reply :=
  [RText (lit "# CLAUDE.md"); RDone; RDone;
   RDone; RDone; RText empty_result_line;
   RDone; RDone;
   RDone; RDone; RText plain_line;
   RDone; RDone; RText created_X_line;
   RDone; RDone; RText empty_result_line;
   RDone].


End Samples.

(* ===================================================================== *)
(** * Reading an event log                                                *)
(* ===================================================================== *)

Module Log.
Import Py IO.



(** The request an event hands to child [pid], if it does. *)
Definition request_to (pid : nat) (ev : event) : option str :=
  match ev with
  | ECommunicate p input => if Nat.eqb p pid then Some input else None
  | EWrite p data => if Nat.eqb p pid then Some data else None
  | _ => None
  end.

(** The requests handed to child [pid], oldest first. *)
Fixpoint requests_to (pid : nat) (l : list event) : list str :=
  match l with
  | [] => []
  | ev :: l' =>
      match request_to pid ev with
      | Some s => s :: requests_to pid l'
      | None => requests_to pid l'
      end
  end.

(** The children started, oldest first. *)
Fixpoint spawns (l : list event) : list nat :=
  match l with
  | [] => []
  | ESpawn p :: l' => p :: spawns l'
  | _ :: l' => spawns l'
  end.


(** What the [finally] clause of test_mcp.py does to child [process],
    given the replies still to come: terminate, wait, and kill when the
    wait ran into its timeout. *)
Definition release (process : nat) (replies : list reply) : list event :=
  [ETerminate process; EWait process]
  ++ match replies with
     | RRaise TimeoutExpired :: _ => [EKill process]
     | _ => []
     end.



End Log.

(* ===================================================================== *)
(** * Values that [json.dumps] and [json.loads] carry unchanged            *)
(* ===================================================================== *)

Module Plain.
Import Py Json.

(** A Unicode scalar value: a code point that is not a surrogate. *)
Definition scalar (c : char) : bool :=
  (c <? 55296) || ((57343 <? c) && (c <? 1114112)).

Definition plain_str (s : str) : bool := forallb scalar s.

(** No key occurs twice, as in every dict. *)
Fixpoint unique (keys : list str) : bool :=
  match keys with
  | [] => true
  | k :: keys' => negb (existsb (str_eqb k) keys') && unique keys'
  end.

(** A value without floats, whose strings are made of scalar values and
    whose dicts have no key twice. *)
Fixpoint plain (v : json) : bool :=
  match v with
  | JNull | JBool _ | JInt _ => true
  | JFloat _ => false
  | JStr s => plain_str s
  | JArr l => forallb plain l
  | JObj d =>
      forallb (fun kv => plain_str (fst kv) && plain (snd kv)) d
      && unique (map fst d)
  end.






(** A printable ASCII character. *)
Definition printable (c : char) : Prop := 32 <= c <= 126.

(** An amount of fuel is adequate for [parse_value] when a result it
    gives leaves a shorter text and is also the result with any fuel that
    covers the code points it read. *)
Definition adequate (f : nat) : Prop :=
  forall s v r,
    parse_value f s = Some (v, r) ->
    (length r < length s)%nat /\
    forall g, (length s - length r <= g)%nat -> parse_value g s = Some (v, r).

End Plain.


(* ===================================================================== *)
(** * Properties of computations                                          *)
(* ===================================================================== *)

Module Steps.
Import Py IO.




End Steps.

(* ===================================================================== *)
(** * The text a scanner reads                                            *)
(* ===================================================================== *)

Module Cut.
Import Py Json.

(** The escape of a low surrogate at the head of [y], with the text that
    follows it. *)
Definition low_escape (y : str) : option (N * str) :=
  match y with
  | bs :: u :: a :: b :: c :: d :: y' =>
      if (bs =? 92) && (u =? 117) then
        match decode_hex4 a b c d with
        | Some uni2 => if is_low_surrogate uni2 then Some (uni2, y') else None
        | None => None
        end
      else None
  | _ => None
  end.

(** Text that does not begin with a digit. *)
Definition no_digit (rest : str) : bool :=
  match rest with [] => true | c :: _ => negb (is_digit c) end.

(** Text that begins and ends with a character that [str.strip] keeps. *)
Definition solid (a : str) : Prop :=
  (exists c a', a = c :: a' /\ isspace c = false)
  /\ (exists a' c, a = a' ++ [c] /\ isspace c = false).

(** The scanner [sc] reads the beginning of its text and no further: a
    result stays the same when the text it left unread is cut short. *)
Definition reads_locally {A} (sc : str -> option (A * str)) : Prop :=
  forall s x r,
    sc s = Some (x, r) ->
    exists a,
      s = a ++ r
      /\ solid a
      /\ forall r' z, r = r' ++ z -> sc (a ++ r') = Some (x, r').

End Cut.

(* ===================================================================== *)
(** * The order of events                                                 *)
(* ===================================================================== *)

Module Trace.
Import Py Json IO.

(** [l] is the beginning of [full]. *)
Definition begins (l full : list event) : Prop := exists more, full = l ++ more.



(** The line that carries [request]. *)
Definition line (request : json) : str := json_dumps request ++ [10].

(** The events of a run of create_claude_doc.py in which every request is
    sent, for the content of CLAUDE.md and the document id found. *)
Definition create_doc_events (md : str) (id : json) : list event :=
  [EOpen;
   ESpawn 0;
   ECommunicate 0 (CreateClaudeDoc.request_str
                     (CreateClaudeDoc.build_request
                        (lit "initialize") CreateClaudeDoc.init_params));
   ESpawn 1;
   ECommunicate 1 (CreateClaudeDoc.request_str
                     (CreateClaudeDoc.build_request
                        (lit "tools/call") CreateClaudeDoc.create_params));
   ESpawn 2;
   ECommunicate 2 (CreateClaudeDoc.request_str
                     (CreateClaudeDoc.build_request
                        (lit "tools/call")
                        (CreateClaudeDoc.format_params id (JStr md))))].


(** The events of one call of [send_mcp_request] of test_multi_account.py
    that returns, on child [pid]. *)
Definition multi_account_call (pid : nat) (name : string) : list event :=
  [ESpawn pid;
   EWrite pid (line (TestMultiAccount.build_request
                       (lit "tools/call") (TestMultiAccount.tool_call name)));
   EFlush pid; EReadline pid; ETerminate pid].

(** The events of a run of test_multi_account.py that makes its three
    calls. *)
Definition multi_account_events : list event :=
  multi_account_call 0 "accounts_list"
  ++ multi_account_call 1 "accounts_details"
  ++ multi_account_call 2 "calendar_list".

End Trace.

(* ===================================================================== *)
(** * The specification's statements, to compare the code with           *)
(* ===================================================================== *)

Module Spec.
Import Py Json IO Log.



(** An item of a content sequence whose type is ["text"]. *)
Definition typed_text (item : json) : bool :=
  match item with
  | JObj d => match dict_get (lit "type") d with
              | Some ty => eq_str ty (lit "text")
              | None => false
              end
  | _ => false
  end.






(** The result of a client [call], given what the child printed on its
    standard output and on its standard error, does not depend on the
    latter. *)
Definition stderr_is_diagnostic_only (call : str -> str -> result json) : Prop :=
  forall stdout stderr1 stderr2, call stdout stderr1 = call stdout stderr2.





(** A response that passes the scripts' test
    [not response or "error" in response]. *)
Definition accepted (response : json) : Prop :=
  truthy response = true /\ contains (lit "error") response = Ok false.











End Spec.

(* ===================================================================== *)
(** * Facts about the library model                                       *)
(* ===================================================================== *)

Module JsonFacts.
Import Py Json.

Lemma json_loads_total (s : str) :
  (exists v, json_loads s = Ok v) \/ json_loads s = Raise JSONDecodeError.
Proof.
  unfold json_loads.
  destruct (parse_value _ _) as [[v r]|]; [|now right].
  destruct (skip_ws r); [left; now exists v | now right].
Qed.

Lemma json_loads_raises (s : str) (e : exn) :
  json_loads s = Raise e -> e = JSONDecodeError.
Proof.
  destruct (json_loads_total s) as [[v H]|H]; rewrite H; congruence.
Qed.

Lemma json_loads_empty : json_loads [] = Raise JSONDecodeError.
Proof. reflexivity. Qed.

Lemma strip_empty : strip [] = [].
Proof. reflexivity. Qed.

Lemma loads_nonempty (line : str) (v : json) :
  json_loads (strip line) = Ok v -> truthy (JStr line) = true.
Proof.
  destruct line; [rewrite strip_empty, json_loads_empty; discriminate | reflexivity].
Qed.

End JsonFacts.

(* ===================================================================== *)
(** * The fuel of [json.loads] is enough                                  *)
(* ===================================================================== *)

Module FuelFacts.
Import Py Json Plain.

Lemma skip_ws_length s : (length (skip_ws s) <= length s)%nat.
Proof.
  induction s as [|c s IH]; [auto|]. cbn [skip_ws].
  destruct (is_ws c); cbn [length]; lia.
Qed.

Lemma push_Some {A} c (x : option (str * A)) t r :
  push c x = Some (t, r) -> exists t', x = Some (t', r).
Proof.
  destruct x as [[t' r']|]; [|discriminate]. intros [= _ <-]. now exists t'.
Qed.

Lemma scanstring_length s t r :
  scanstring s = Some (t, r) -> (length r < length s)%nat.
Proof.
  remember (length s) as n eqn:Hn. revert s t r Hn.
  induction n as [n IH] using lt_wf_ind. intros s t r Hn H. subst n.
  assert (Rec : forall s' t', (length s' < length s)%nat ->
                              scanstring s' = Some (t', r) ->
                              (length r < length s)%nat).
  { intros s' t' L E. specialize (IH _ L s' t' r eq_refl E). lia. }
  clear IH.
  destruct s as [|c s1]; [discriminate|]. cbn [scanstring] in H.
  destruct (c =? 34); [injection H as _ <-; cbn [length]; lia|].
  destruct (c <? 32); [discriminate|].
  destruct (c =? 92).
  2:{ apply push_Some in H. destruct H as [t' H].
      apply (Rec s1 t'); [cbn [length]; lia | exact H]. }
  destruct s1 as [|e s2]; [discriminate|].
  destruct (e =? 117).
  2:{ destruct (unescape e); [|discriminate].
      apply push_Some in H. destruct H as [t' H].
      apply (Rec s2 t'); [cbn [length]; lia | exact H]. }
  destruct s2 as [|a [|b [|x [|d s6]]]]; try discriminate.
  destruct (decode_hex4 a b x d) as [uni|]; [|discriminate].
  assert (Plain : forall t', scanstring s6 = Some (t', r) ->
                             (length r < length (c :: e :: a :: b :: x :: d :: s6))%nat).
  { intros t' E. apply (Rec s6 t'); [cbn [length]; lia | exact E]. }
  destruct (is_high_surrogate uni).
  2:{ apply push_Some in H. destruct H as [t' H]. now apply (Plain t'). }
  destruct s6 as [|bs [|u s8]];
    try (apply push_Some in H; destruct H as [t' H]; now apply (Plain t')).
  destruct ((bs =? 92) && (u =? 117)).
  2:{ apply push_Some in H. destruct H as [t' H]. now apply (Plain t'). }
  destruct s8 as [|a2 [|b2 [|x2 [|d2 s12]]]]; try discriminate.
  destruct (decode_hex4 a2 b2 x2 d2) as [uni2|]; [|discriminate].
  destruct (is_low_surrogate uni2).
  - apply push_Some in H. destruct H as [t' H].
    apply (Rec s12 t'); [cbn [length]; lia | exact H].
  - apply push_Some in H. destruct H as [t' H]. now apply (Plain t').
Qed.

Lemma span_digits_length s d r :
  span_digits s = (d, r) -> (length r <= length s)%nat.
Proof.
  revert d r. induction s as [|c s IH]; intros d r H; cbn [span_digits] in H.
  - injection H as _ <-. auto.
  - destruct (is_digit c).
    + destruct (span_digits s) as [d' r'] eqn:E. injection H as _ <-.
      specialize (IH _ _ eq_refl). cbn [length]. lia.
    + injection H as _ <-. auto.
Qed.

Lemma match_integer_length s i r :
  match_integer s = Some (i, r) -> (length r < length s)%nat.
Proof.
  unfold match_integer. intros H.
  assert (G : forall sign s1,
             (length s1 <= length s)%nat ->
             match s1 with
             | c :: r0 =>
                 if c =? 48 then Some (sign ++ [48], r0)
                 else if is_digit c then
                        let (d, r') := span_digits r0 in Some (sign ++ c :: d, r')
                      else None
             | [] => None
             end = Some (i, r) -> (length r < length s)%nat).
  { intros sign [|c r0] L E; [discriminate|]. cbn [length] in L.
    destruct (c =? 48); [injection E as _ <-; lia|].
    destruct (is_digit c); [|discriminate].
    destruct (span_digits r0) as [d r'] eqn:S. injection E as _ <-.
    apply span_digits_length in S. lia. }
  destruct s as [|c s0]; [discriminate|].
  destruct (c =? 45).
  - apply (G [45] s0); [cbn [length]; lia | exact H].
  - apply (G [] (c :: s0)); [lia | exact H].
Qed.

Lemma match_frac_length s fr r :
  match_frac s = (fr, r) -> (length r <= length s)%nat.
Proof.
  unfold match_frac. destruct s as [|c s0]; [intros [= _ <-]; auto|].
  destruct (c =? 46); [|intros [= _ <-]; auto].
  destruct (span_digits s0) as [[|d ds] r'] eqn:S; intros [= _ <-]; auto.
  apply span_digits_length in S. cbn [length]. lia.
Qed.

Lemma match_exp_length s ex r :
  match_exp s = (ex, r) -> (length r <= length s)%nat.
Proof.
  unfold match_exp. destruct s as [|c s0]; [intros [= _ <-]; auto|].
  destruct ((c =? 101) || (c =? 69)); [|intros [= _ <-]; auto].
  destruct s0 as [|x s1].
  - cbn [span_digits]. intros [= _ <-]. auto.
  - destruct ((x =? 45) || (x =? 43)).
    + destruct (span_digits s1) as [[|d ds] r'] eqn:S; intros [= _ <-]; auto.
      apply span_digits_length in S. cbn [length]. lia.
    + destruct (span_digits (x :: s1)) as [[|d ds] r'] eqn:S;
        intros [= _ <-]; auto.
      apply span_digits_length in S. cbn [length] in *. lia.
Qed.

Lemma match_number_length s x r :
  match_number s = Some (x, r) -> (length r < length s)%nat.
Proof.
  unfold match_number.
  destruct (match_integer s) as [[i r0]|] eqn:I; [|discriminate].
  destruct (match_frac r0) as [fr r1] eqn:F.
  destruct (match_exp r1) as [ex r2] eqn:E.
  apply match_integer_length in I. apply match_frac_length in F.
  apply match_exp_length in E.
  destruct fr, ex; intros [= _ <-]; lia.
Qed.

Lemma strip_prefix_length p s r :
  strip_prefix p s = Some r -> (length r + length p = length s)%nat.
Proof.
  revert s. induction p as [|x p IH]; intros s H; cbn [strip_prefix] in H.
  - injection H as <-. cbn [length]. lia.
  - destruct s as [|y s]; [discriminate|].
    destruct (x =? y); [|discriminate]. apply IH in H. cbn [length]. lia.
Qed.

Lemma parse_elems_adequate f :
  adequate f ->
  forall n s vs r,
    parse_elems (parse_value f) n s = Some (vs, r) ->
    (length r < length s)%nat /\
    forall g m, (length s - length r <= g)%nat ->
                (length s - length r <= m)%nat ->
                parse_elems (parse_value g) m s = Some (vs, r).
Proof.
  intros Hf. induction n as [|n IH]; intros s vs r H; [discriminate|].
  cbn [parse_elems] in H.
  destruct (parse_value f s) as [[v r1]|] eqn:E; [|discriminate].
  destruct (Hf _ _ _ E) as [L1 G1].
  destruct (skip_ws r1) as [|c r2] eqn:W; [discriminate|].
  pose proof (skip_ws_length r1) as L2. rewrite W in L2. cbn [length] in L2.
  destruct (c =? 93) eqn:E93.
  { injection H as <- <-. split; [lia|]. intros g m Hg Hm.
    destruct m as [|m]; [lia|]. cbn [parse_elems].
    rewrite G1 by lia. rewrite W, E93. reflexivity. }
  destruct (c =? 44) eqn:E44; [|discriminate].
  destruct (parse_elems (parse_value f) n (skip_ws r2)) as [[vs' r3]|] eqn:E2;
    [|discriminate].
  injection H as <- <-.
  destruct (IH _ _ _ E2) as [L3 G3].
  pose proof (skip_ws_length r2) as L4.
  split; [lia|]. intros g m Hg Hm.
  destruct m as [|m]; [lia|]. cbn [parse_elems].
  rewrite G1 by lia. rewrite W, E93, E44.
  rewrite (G3 g m) by lia. reflexivity.
Qed.

Lemma parse_members_adequate f :
  adequate f ->
  forall n s kvs r,
    parse_members (parse_value f) n s = Some (kvs, r) ->
    (length r < length s)%nat /\
    forall g m, (length s - length r <= g)%nat ->
                (length s - length r <= m)%nat ->
                parse_members (parse_value g) m s = Some (kvs, r).
Proof.
  intros Hf. induction n as [|n IH]; intros s kvs r H; [discriminate|].
  cbn [parse_members] in H.
  destruct s as [|q r0]; [discriminate|].
  destruct (q =? 34) eqn:Eq; [|discriminate].
  destruct (scanstring r0) as [[k r1]|] eqn:Ek; [|discriminate].
  pose proof (scanstring_length _ _ _ Ek) as L1.
  destruct (skip_ws r1) as [|c r2] eqn:W1; [discriminate|].
  pose proof (skip_ws_length r1) as L2. rewrite W1 in L2. cbn [length] in L2.
  destruct (c =? 58) eqn:Ec; [|discriminate].
  destruct (parse_value f (skip_ws r2)) as [[v r3]|] eqn:Ev; [|discriminate].
  destruct (Hf _ _ _ Ev) as [L3 G3].
  pose proof (skip_ws_length r2) as L3'.
  destruct (skip_ws r3) as [|d r4] eqn:W3; [discriminate|].
  pose proof (skip_ws_length r3) as L4. rewrite W3 in L4. cbn [length] in L4.
  destruct (d =? 125) eqn:E125.
  { injection H as <- <-. cbn [length]. split; [lia|]. intros g m Hg Hm.
    destruct m as [|m]; [lia|]. cbn [parse_members].
    rewrite Eq, Ek, W1, Ec. rewrite G3 by lia. rewrite W3, E125.
    reflexivity. }
  destruct (d =? 44) eqn:E44; [|discriminate].
  destruct (parse_members (parse_value f) n (skip_ws r4)) as [[kvs' r5]|] eqn:E5;
    [|discriminate].
  injection H as <- <-.
  destruct (IH _ _ _ E5) as [L5 G5].
  pose proof (skip_ws_length r4) as L6.
  cbn [length]. split; [lia|]. intros g m Hg Hm.
  destruct m as [|m]; [lia|]. cbn [parse_members].
  rewrite Eq, Ek, W1, Ec. rewrite G3 by lia. rewrite W3, E125, E44.
  rewrite (G5 g m) by lia. reflexivity.
Qed.

Lemma parse_value_adequate f : adequate f.
Proof.
  induction f as [|f IH]; intros s v r H; [discriminate|].
  cbn [parse_value] in H.
  destruct s as [|c r0]; [discriminate|].
  destruct (c =? 34) eqn:E34.
  { destruct (scanstring r0) as [[t r']|] eqn:Es; [|discriminate].
    injection H as <- <-. pose proof (scanstring_length _ _ _ Es) as L.
    split; [cbn [length]; lia|]. intros [|g] Hg; [cbn [length] in Hg; lia|].
    cbn [parse_value]. rewrite E34, Es. reflexivity. }
  destruct (c =? 123) eqn:E123.
  { destruct (skip_ws r0) as [|d r'] eqn:W; [discriminate|].
    pose proof (skip_ws_length r0) as L0. rewrite W in L0.
    destruct (d =? 125) eqn:E125.
    { injection H as <- <-. cbn [length] in *. split; [lia|].
      intros [|g] Hg; [lia|]. cbn [parse_value].
      rewrite E34, E123, W, E125. reflexivity. }
    destruct (parse_members (parse_value f) f (d :: r')) as [[kvs r'']|] eqn:Em;
      [|discriminate].
    injection H as <- <-.
    destruct (parse_members_adequate f IH _ _ _ _ Em) as [L G].
    cbn [length] in *. split; [lia|].
    intros [|g] Hg; [lia|]. cbn [parse_value].
    rewrite E34, E123, W, E125. rewrite (G g g) by lia. reflexivity. }
  destruct (c =? 91) eqn:E91.
  { destruct (skip_ws r0) as [|d r'] eqn:W; [discriminate|].
    pose proof (skip_ws_length r0) as L0. rewrite W in L0.
    destruct (d =? 93) eqn:E93.
    { injection H as <- <-. cbn [length] in *. split; [lia|].
      intros [|g] Hg; [lia|]. cbn [parse_value].
      rewrite E34, E123, E91, W, E93. reflexivity. }
    destruct (parse_elems (parse_value f) f (d :: r')) as [[vs r'']|] eqn:Em;
      [|discriminate].
    injection H as <- <-.
    destruct (parse_elems_adequate f IH _ _ _ _ Em) as [L G].
    cbn [length] in *. split; [lia|].
    intros [|g] Hg; [lia|]. cbn [parse_value].
    rewrite E34, E123, E91, W, E93. rewrite (G g g) by lia. reflexivity. }
  assert (L : (length r < length (c :: r0))%nat).
  { repeat match type of H with
           | match strip_prefix ?p ?s with _ => _ end = _ =>
               let E := fresh "E" in
               destruct (strip_prefix p s) eqn:E;
               [injection H as _ <-; apply strip_prefix_length in E;
                assert (0 < length p)%nat by (vm_compute; lia); lia|]
           | match match_number ?s with _ => _ end = _ =>
               let E := fresh "E" in
               destruct (match_number s) as [[x rx]|] eqn:E;
               [injection H as _ <-; apply match_number_length in E; exact E|]
           end.
    discriminate. }
  split; [exact L|]. intros [|g] Hg; [lia|].
  remember (c :: r0) as s eqn:Hs. cbn [parse_value]. rewrite Hs at 1.
  rewrite E34, E123, E91. exact H.
Qed.

(** The fuel [json_loads] gives the parser, one more than the length of
    the text, is enough: no larger amount changes the result. *)
Theorem fuel_is_enough g s :
  (S (length s) <= g)%nat ->
  parse_value g (skip_ws s) = parse_value (S (length s)) (skip_ws s).
Proof.
  intros Hg. pose proof (skip_ws_length s) as L.
  destruct (parse_value (S (length s)) (skip_ws s)) as [[v r]|] eqn:E.
  - destruct (parse_value_adequate _ _ _ _ E) as [_ G]. apply G. lia.
  - destruct (parse_value g (skip_ws s)) as [[v r]|] eqn:E'; [|reflexivity].
    destruct (parse_value_adequate _ _ _ _ E') as [_ G].
    rewrite G in E by lia. discriminate.
Qed.

End FuelFacts.

(* ===================================================================== *)
(** * Responses that carry an error                                       *)
(* ===================================================================== *)

Section ErrorResponses.
Import Py Json IO JsonFacts.


End ErrorResponses.

Section ErrorResponsesWitness.
Import Py Json IO Samples.


End ErrorResponsesWitness.

(* ===================================================================== *)
(** * Lines that are not JSON, and no line at all                         *)
(* ===================================================================== *)

Section ParseFailures.
Import Py Json IO JsonFacts Samples.



End ParseFailures.

Section NoOutput.
Import Py Json IO JsonFacts Samples.




End NoOutput.

(* ===================================================================== *)
(** * The child's standard error                                          *)
(* ===================================================================== *)

Section StandardError.
Import Py Json IO JsonFacts Samples.

(** C9, refuted as stated: the same result line is returned when the
    child's standard error is empty and dropped when it is not. *)
Lemma C9_counterexample : ~ Spec.stderr_is_diagnostic_only create_doc_call.
Proof.
  intros H. specialize (H empty_result_line [] (lit "warning")).
  vm_compute in H. discriminate.
Qed.

(** C9, as the code has it.  In create_claude_doc.py any text on the
    child's standard error makes [send_mcp_request] return [None]; two
    runs with the same standard output agree when their standard errors
    are both empty or both not.  [read_response] of test_mcp.py and
    [send_mcp_request] of test_multi_account.py never read the child's
    standard error: the line read fixes what they return. *)
Theorem C9_stderr_only_matters_in_create_claude_doc :
  (forall method params stdout stderr1 stderr2 t1 t2 l1 l2 n1 n2,
      (stderr1 = [] <-> stderr2 = []) ->
      fst (CreateClaudeDoc.send_mcp_request method params
             (World (RDone :: ROutput stdout stderr1 :: t1) l1 n1))
      = fst (CreateClaudeDoc.send_mcp_request method params
               (World (RDone :: ROutput stdout stderr2 :: t2) l2 n2)))
  /\ (forall method params stdout stderr t l n,
      stderr <> [] ->
      fst (CreateClaudeDoc.send_mcp_request method params
             (World (RDone :: ROutput stdout stderr :: t) l n)) = Ok JNull)
  /\ (forall process line t1 t2 l1 l2 n1 n2,
      fst (TestMcp.read_response process (World (RText line :: t1) l1 n1))
      = fst (TestMcp.read_response process (World (RText line :: t2) l2 n2)))
  /\ (forall method params line t1 t2 l1 l2 n1 n2,
      fst (TestMultiAccount.send_mcp_request method params
             (World (RDone :: RDone :: RDone :: RText line :: t1) l1 n1))
      = fst (TestMultiAccount.send_mcp_request method params
               (World (RDone :: RDone :: RDone :: RText line :: t2) l2 n2))).
Proof.
  repeat split.
  - intros method params stdout stderr1 stderr2 t1 t2 l1 l2 n1 n2 H.
    unfold CreateClaudeDoc.send_mcp_request, bind, Popen, communicate, perform, lift.
    cbn [tape fst snd expect_output log spawned].
    unfold CreateClaudeDoc.read_output.
    destruct stderr1, stderr2; cbn [truthy]; try reflexivity.
    + destruct H as [H _]. specialize (H eq_refl). discriminate.
    + destruct H as [_ H]. specialize (H eq_refl). discriminate.
  - intros method params stdout stderr t l n H.
    unfold CreateClaudeDoc.send_mcp_request, bind, Popen, communicate, perform, lift.
    cbn [tape fst snd expect_output log spawned].
    unfold CreateClaudeDoc.read_output.
    destruct stderr; [congruence | reflexivity].
  - intros process line t1 t2 l1 l2 n1 n2.
    unfold TestMcp.read_response, try_except, bind, stdout_readline, perform, lift.
    cbn [tape fst snd expect_text].
    destruct (TestMcp.read_line line) as [v|e]; [reflexivity|].
    destruct (is_Exception e); reflexivity.
Qed.

Lemma C9_witness :
  create_doc_call empty_result_line (lit "warning")
  = create_doc_call empty_result_line (lit "error: no token")
  /\ create_doc_call empty_result_line (lit "warning") = Ok JNull.
Proof.
  destruct C9_stderr_only_matters_in_create_claude_doc as [H1 [H2 _]].
  split.
  - apply H1. split; discriminate.
  - apply H2. discriminate.
Defined.

End StandardError.

(* ===================================================================== *)
(** * The document id of a create response                                *)
(* ===================================================================== *)

Section DocumentId.
Import Py Json IO JsonFacts Samples.


Lemma typed_text_is_dict (i : json) :
  Spec.typed_text i = true -> isinstance_dict i = true.
Proof. destruct i; try discriminate. reflexivity. Qed.





(** In test_mcp.py the type of the first item is not looked at. *)
Example test_mcp_reads_any_first_item :
  TestMcp.extract_document_id (JArr [item "image" document_X])
  = Ok (Some (JStr (lit "X"))).
Proof. reflexivity. Qed.



End DocumentId.

Section DocumentIdLookup.
Import Py Json IO JsonFacts Samples.



(** A text that decodes to JSON other than an object raises. *)
Example lookup_in_a_list_raises :
  CreateClaudeDoc.document_id_loop [item "text" (lit "[1]")]
  = Raise AttributeError
  /\ TestMcp.extract_document_id (JArr [item "text" (lit "[1]")])
     = Raise AttributeError.
Proof. split; reflexivity. Qed.



End DocumentIdLookup.

(* ===================================================================== *)
(** * Reasoning about what a script does                                  *)
(* ===================================================================== *)

Module IOFacts.
Import Py IO Steps.

(** [respects R] goes through the constructs of a script when [R] is a
    preorder. *)
Section Respects.
Variable R : world -> world -> Prop.
Hypothesis R_refl : forall w, R w w.
Hypothesis R_trans : forall a b c, R a b -> R b c -> R a c.







End Respects.





End IOFacts.


(* ===================================================================== *)
(** * The life of the child in test_mcp.py                                *)
(* ===================================================================== *)

Section Session.
Import Py Json IO Log Steps IOFacts Samples.




End Session.

Section Release.
Import Py Json IO Log Steps IOFacts Samples.

(** The [finally] clause of test_mcp.py: terminate, wait, and kill exactly
    when the wait raised [TimeoutExpired]. *)
Lemma cleanup_log process w :
  log (snd (TestMcp.cleanup process w)) = log w ++ release process (tape w)
  /\ tape (snd (TestMcp.cleanup process w)) = tl (tape w).
Proof.
  unfold TestMcp.cleanup, terminate, kill, wait, signal, bind, try_except,
    perform, release.
  cbn [tape log spawned snd].
  destruct (tape w) as [|[| | |[]] t]; cbn [expect_done snd log tape tl app];
    cbn [TestMcp.is_TimeoutExpired snd log tape];
    rewrite <- ?app_assoc; split; reflexivity.
Qed.




End Release.

(* ===================================================================== *)
(** * Children and the requests they receive                              *)
(* ===================================================================== *)

Section Sessions.
Import Py Json IO Log Steps IOFacts Samples.







Lemma try_except_ret_world {A} (c : M A) catches (a : A) w :
  snd (try_except c catches (ret a) w) = snd (c w).
Proof.
  unfold try_except, ret. destruct (c w) as [[x|e] w1]; [reflexivity|].
  destruct (catches e); reflexivity.
Qed.




End Sessions.


Section OneRequestPerChild.
Import Py Json IO Log Steps IOFacts Samples.













End OneRequestPerChild.

Section SessionsPerRun.
Import Py Json IO Log Steps IOFacts Samples.



(** In that run the second child receives the create request, and never
    an initialize request. *)
Example create_doc_second_child :
  requests_to 1 (log (snd (CreateClaudeDoc.main (start create_doc_tape))))
  = [CreateClaudeDoc.request_str
       (CreateClaudeDoc.build_request (lit "tools/call")
                                      CreateClaudeDoc.create_params)].
Proof. reflexivity. Qed.



End SessionsPerRun.

(* ===================================================================== *)
(** * Exit status                                                         *)
(* ===================================================================== *)

Module RunFacts.
Import Py IO Steps.










End RunFacts.


Section ExitStatus.
Import Py Json IO Log Steps IOFacts RunFacts Samples.




Lemma failed_accepted response :
  CreateClaudeDoc.failed response = Ok false <-> Spec.accepted response.
Proof.
  unfold CreateClaudeDoc.failed, Spec.accepted.
  destruct (truthy response); cbn [negb]; split.
  - intros H. now split.
  - intros [_ H]. exact H.
  - discriminate.
  - intros [H _]. discriminate.
Qed.



Lemma create_doc_call_run method params out r t lg n :
  json_loads (strip out) = Ok r ->
  exists w', CreateClaudeDoc.send_mcp_request method params
               (World (RDone :: ROutput out [] :: t) lg n) = (Ok r, w')
             /\ tape w' = t.
Proof.
  intros H. eexists.
  cbn [CreateClaudeDoc.send_mcp_request bind Popen communicate perform
       lift tape log spawned expect_output fst snd].
  unfold CreateClaudeDoc.read_output. cbn [truthy]. rewrite H.
  split; reflexivity.
Qed.

Lemma report_failure_not_0 response w w' :
  lift (CreateClaudeDoc.report_failure response) w <> (Ok 0%Z, w').
Proof.
  unfold lift, CreateClaudeDoc.report_failure.
  destruct (truthy response); [|discriminate].
  destruct (get response _ _); cbn [rbind]; discriminate.
Qed.





End ExitStatus.

Section ExitStatusTestMcp.
Import Py Json IO Log Steps IOFacts RunFacts JsonFacts Samples.












Lemma bind_run {A B} (c : M A) (k : A -> M B) w a w1 :
  c w = (Ok a, w1) -> bind c k w = k a w1.
Proof. intros H. unfold bind. now rewrite H. Qed.


Lemma sleep_run t lg n :
  sleep (World (RDone :: t) lg n) = (Ok tt, World t (lg ++ [ESleep]) n).
Proof. reflexivity. Qed.

Lemma send_request_run process request t lg n :
  TestMcp.send_request process request (World (RDone :: RDone :: t) lg n)
  = (Ok tt, World t ((lg ++ [EWrite process (json_dumps request ++ [10])])
                       ++ [EFlush process]) n).
Proof. reflexivity. Qed.






End ExitStatusTestMcp.

Section ExitStatusClaim.
Import Py Json IO Log Steps IOFacts RunFacts JsonFacts Samples.


(** test_mcp.py does not look at the answer to tools/list: with a line
    that is not JSON there, the run still ends with status 0. *)
Example test_mcp_ignores_tools_list : TestMcp.run test_mcp_tape = 0%Z.
Proof. reflexivity. Qed.





End ExitStatusClaim.

Module RoundTrip.
Import Py Json Plain.






(** ** Strings *)

Lemma scanstring_u a b c d r :
  scanstring (92 :: 117 :: a :: b :: c :: d :: r)
  = match decode_hex4 a b c d with
    | None => None
    | Some uni =>
        if is_high_surrogate uni then
          match r with
          | bs :: u :: r3 =>
              if (bs =? 92) && (u =? 117) then
                match r3 with
                | a2 :: b2 :: c2 :: d2 :: r4 =>
                    match decode_hex4 a2 b2 c2 d2 with
                    | None => None
                    | Some uni2 =>
                        if is_low_surrogate uni2 then
                          push (65536 + N.lor (N.shiftl (uni - 55296) 10)
                                              (uni2 - 56320))
                               (scanstring r4)
                        else push uni (scanstring r)
                    end
                | _ => None
                end
              else push uni (scanstring r)
          | _ => push uni (scanstring r)
          end
        else push uni (scanstring r)
    end.
Proof. reflexivity. Qed.




(** ** Integers *)



Lemma span_digits_app ds rest :
  Forall (fun c => is_digit c = true) ds ->
  match rest with [] => true | c :: _ => negb (is_digit c) end = true ->
  span_digits (ds ++ rest) = (ds, rest).
Proof.
  intros H Hr. induction H as [|c ds Hc _ IH].
  - destruct rest as [|c rest]; [reflexivity|].
    cbn [app span_digits]. apply negb_true_iff in Hr. now rewrite Hr.
  - cbn [app span_digits]. now rewrite Hc, IH.
Qed.








(** ** Values *)

Lemma json_induction (P : json -> Prop) :
  P JNull -> (forall b, P (JBool b)) -> (forall z, P (JInt z)) ->
  (forall l, P (JFloat l)) -> (forall s, P (JStr s)) ->
  (forall items, Forall P items -> P (JArr items)) ->
  (forall members, Forall (fun kv => P (snd kv)) members -> P (JObj members)) ->
  forall v, P v.
Proof.
  intros HNull HBool HInt HFloat HStr HArr HObj.
  fix IH 1. intros [|b|z|l|s|items|members].
  - exact HNull.
  - apply HBool.
  - apply HInt.
  - apply HFloat.
  - apply HStr.
  - apply HArr. induction items as [|x items IHitems]; constructor.
    + apply IH.
    + exact IHitems.
  - apply HObj. induction members as [|[k x] members IHmembers]; constructor.
    + apply IH.
    + exact IHmembers.
Qed.





Lemma parse_value_number f c s x :
  c = 45 \/ is_digit c = true ->
  match_number (c :: s) = Some x ->
  parse_value (S f) (c :: s) = Some x.
Proof.
  intros H M.
  assert (E : parse_value (S f) (c :: s)
              = match match_number (c :: s) with
                | Some y => Some y
                | None => parse_value (S f) (c :: s)
                end).
  { assert (C : c = 45 \/ c = 48 \/ c = 49 \/ c = 50 \/ c = 51 \/ c = 52
                \/ c = 53 \/ c = 54 \/ c = 55 \/ c = 56 \/ c = 57).
    { destruct H as [->|H]; [now left|]. unfold is_digit in H.
      apply andb_true_iff in H. destruct H as [H1 H2].
      apply N.leb_le in H1, H2. lia. }
    clear H.
    repeat (destruct C as [->|C];
            [cbn [parse_value N.eqb Pos.eqb strip_prefix lit map
                  list_ascii_of_string N_of_ascii N_of_digits];
             destruct (match_number _); reflexivity|]).
    subst c.
    cbn [parse_value N.eqb Pos.eqb strip_prefix lit map
         list_ascii_of_string N_of_ascii N_of_digits].
    destruct (match_number _); reflexivity. }
  rewrite E, M. reflexivity.
Qed.




(** ** Dictionaries *)





(** ** Enough fuel *)











(** ** The characters of an encoded value *)

Lemma hex_digit_printable d : d < 16 -> printable (hex_digit d).
Proof.
  unfold printable, hex_digit. intros H. destruct (N.ltb_spec d 10); lia.
Qed.

Lemma u_escape_printable n : Forall printable (u_escape n).
Proof.
  unfold u_escape.
  repeat constructor; try (unfold printable; lia);
    apply hex_digit_printable; apply N.mod_lt; lia.
Qed.

Lemma escape_char_printable c : Forall printable (escape_char c).
Proof.
  unfold escape_char.
  repeat match goal with
         | |- context [if ?b then _ else _] => destruct b eqn:?
         end;
    try (repeat constructor; unfold printable; lia).
  - apply andb_true_iff in Heqb6. destruct Heqb6 as [H1 H2].
    apply N.leb_le in H1, H2. repeat constructor; assumption.
  - apply u_escape_printable.
  - apply Forall_app. split; apply u_escape_printable.
Qed.

Lemma encode_string_printable s : Forall printable (encode_string s).
Proof.
  unfold encode_string. constructor; [unfold printable; lia|].
  apply Forall_app. split; [|repeat constructor; unfold printable; lia].
  induction s as [|c s IH]; [constructor|].
  cbn [flat_map]. apply Forall_app. split; [apply escape_char_printable|exact IH].
Qed.

Lemma digits_printable u : Forall printable (digits_of_uint u).
Proof.
  induction u; cbn [digits_of_uint]; constructor; auto; unfold printable; lia.
Qed.

Lemma join_printable l :
  Forall (Forall printable) l -> Forall printable (join (lit ", ") l).
Proof.
  induction 1 as [|x l Hx Hl IH]; [constructor|].
  destruct l as [|y l]; [exact Hx|].
  change (join (lit ", ") (x :: y :: l))
    with (x ++ 44 :: 32 :: join (lit ", ") (y :: l)).
  apply Forall_app. split; [exact Hx|].
  repeat (constructor; [unfold printable; lia|]). exact IH.
Qed.

(** With [ensure_ascii], a value without floats is encoded in printable
    ASCII characters. *)
Lemma json_dumps_printable v :
  plain v = true -> Forall printable (json_dumps v).
Proof.
  induction v as [|b|z|l|s|items IH|members IH] using json_induction;
    intros Hp.
  - repeat constructor; unfold printable; cbn; lia.
  - destruct b; repeat constructor; unfold printable; cbn; lia.
  - cbn [json_dumps]. unfold repr_int.
    destruct (Z.to_int z); [|constructor; [unfold printable; lia|]];
      apply digits_printable.
  - discriminate.
  - apply encode_string_printable.
  - cbn [plain] in Hp. cbn [json_dumps].
    constructor; [unfold printable; lia|]. apply Forall_app.
    split; [|repeat constructor; unfold printable; lia].
    apply join_printable. apply Forall_map.
    rewrite Forall_forall in *. intros x Hx. apply IH; [exact Hx|].
    rewrite forallb_forall in Hp. now apply Hp.
  - cbn [plain] in Hp. apply andb_true_iff in Hp. destruct Hp as [Hp _].
    cbn [json_dumps].
    constructor; [unfold printable; lia|]. apply Forall_app.
    split; [|repeat constructor; unfold printable; lia].
    apply join_printable. apply Forall_map.
    rewrite Forall_forall in *. intros x Hx.
    rewrite forallb_forall in Hp. specialize (Hp x Hx).
    apply andb_true_iff in Hp. destruct Hp as [_ Hp].
    apply Forall_app. split; [apply encode_string_printable|].
    apply Forall_app. split; [repeat constructor; unfold printable; cbn; lia|].
    now apply IH.
Qed.


End RoundTrip.

(* ===================================================================== *)
(** * The request line                                                    *)
(* ===================================================================== *)

Section RequestLine.
Import Py Json IO Log Plain RoundTrip Samples.


(** test_multi_account.py sends an empty params field when none was
    supplied. *)
Example multi_account_adds_params :
  json_loads (json_dumps (TestMultiAccount.build_request (lit "tools/list") JNull)
              ++ [10])
  = Ok (JObj [(lit "jsonrpc", JStr (lit "2.0"));
              (lit "method", JStr (lit "tools/list"));
              (lit "params", JObj []);
              (lit "id", JInt 1)]).
Proof. reflexivity. Qed.

Lemma create_doc_request_plain method params :
  plain_str method = true -> plain params = true ->
  plain (CreateClaudeDoc.build_request method params) = true.
Proof.
  intros Hm Hp. unfold CreateClaudeDoc.build_request.
  destruct (truthy params); cbn; rewrite Hm, ?Hp; reflexivity.
Qed.

Lemma multi_account_request_plain method params :
  plain_str method = true -> plain params = true ->
  plain (TestMultiAccount.build_request method params) = true.
Proof.
  intros Hm Hp. unfold TestMultiAccount.build_request.
  destruct (truthy params); cbn; rewrite Hm, ?Hp; reflexivity.
Qed.




End RequestLine.

(* ===================================================================== *)
(** * What a call returns, and what it lets through                       *)
(* ===================================================================== *)

Section Calls.
Import Py Json IO Log JsonFacts Samples.



(** X3.  [read_response] of test_mcp.py reads exactly one line and lets
    no [Exception] through: it returns, unless the read was interrupted,
    and [KeyboardInterrupt] is the only exception that leaves it. *)
Theorem X3_read_response_lets_only_an_interrupt_through :
  forall process w,
    let r := TestMcp.read_response process w in
    log (snd r) = log w ++ [EReadline process]
    /\ tape (snd r) = tl (tape w)
    /\ ((exists v, fst r = Ok v)
        \/ (fst r = Raise KeyboardInterrupt
            /\ exists t, tape w = RRaise KeyboardInterrupt :: t)).
Proof.
  intros process [t l n]. cbv zeta.
  destruct t as [|[|line|out err|e] t];
    cbn [TestMcp.read_response try_except bind stdout_readline perform lift
         tape log spawned fst snd expect_text is_Exception ret tl];
    try (split; [reflexivity|split; [reflexivity|left; eexists; reflexivity]]).
  - destruct (TestMcp.read_line line) as [v|e] eqn:E; cbn [fst snd log tape].
    + split; [reflexivity|]. split; [reflexivity|]. left. now exists v.
    + unfold TestMcp.read_line in E.
      destruct (truthy (JStr line)); [|discriminate].
      apply json_loads_raises in E. subst e.
      cbn [is_Exception ret fst snd log tape].
      split; [reflexivity|]. split; [reflexivity|]. left. now eexists.
  - destruct e; cbn [is_Exception ret fst snd log tape];
      (split; [reflexivity|]); (split; [reflexivity|]);
      try (left; eexists; reflexivity).
    right. split; [reflexivity|]. now exists t.
Qed.

End Calls.

(* ===================================================================== *)
(** * The order in which a script does things                             *)
(* ===================================================================== *)

Module TraceFacts.
Import Py Json IO Trace.











End TraceFacts.

(* ===================================================================== *)
(** * The run of create_claude_doc.py                                     *)
(* ===================================================================== *)

Ltac create_doc_run :=
  cbn [CreateClaudeDoc.main CreateClaudeDoc.main_with
       CreateClaudeDoc.send_mcp_request CreateClaudeDoc.is_FileNotFoundError
       IO.start IO.try_except IO.bind IO.open_read IO.Popen IO.communicate
       IO.perform IO.lift IO.ret IO.tape IO.log IO.spawned IO.expect_text
       IO.expect_output fst snd negb app].

Section CreateDocTrace.
Import Py Json IO Log Trace JsonFacts Samples.

(** X6.  Whatever the outside world answers, create_claude_doc.py does
    things in one order: it reads CLAUDE.md, then starts a child and
    hands it the initialize request, a second child and the create
    request, a third child and the format request.  A run stops anywhere
    in this sequence, it never leaves it: no step is repeated or taken
    out of order, no more than three children are started, and no child
    is written to, read line by line, waited for, terminated or killed. *)
Theorem X6_create_doc_trace :
  forall t,
  exists md id,
    begins (log (snd (CreateClaudeDoc.main (start t))))
           (create_doc_events md id).
Proof.
  intros t.
  unfold CreateClaudeDoc.main, CreateClaudeDoc.main_with,
    CreateClaudeDoc.send_mcp_request, start, open_read, Popen, communicate,
    perform, bind, try_except, lift, ret.
  repeat (create_doc_run;
          match goal with
          | |- context [match ?x with _ => _ end] =>
              lazymatch x with
              | context [match _ with _ => _ end] => fail
              | _ => destruct x
              end
          end).
  all: create_doc_run.
  all: first [ exists [], JNull; eexists; reflexivity
             | do 3 eexists; reflexivity ].
Qed.

(** X7.  Whenever create_claude_doc.py hands its third child a request,
    that request is the docs_document_format call whose [document_id] is
    the value the loop over the content of the create response left in
    [document_id], a truthy one, and whose [markdown_content] is the
    text read from CLAUDE.md; the create response is what
    [send_mcp_request] made of the second child's output. *)
Theorem X7_create_doc_format_request :
  forall t input,
    In (ECommunicate 2 input) (log (snd (CreateClaudeDoc.main (start t)))) ->
    exists md id items content result r2,
      input = CreateClaudeDoc.request_str
                (CreateClaudeDoc.build_request (lit "tools/call")
                   (CreateClaudeDoc.format_params id (JStr md)))
      /\ truthy id = true
      /\ CreateClaudeDoc.document_id_loop items = Ok id
      /\ iter content = Ok items
      /\ get result (lit "content") (JArr []) = Ok content
      /\ get r2 (lit "result") (JObj []) = Ok result
      /\ exists first out2 err2 rest,
          t = RText md :: RDone :: first :: RDone :: ROutput out2 err2 :: rest
          /\ CreateClaudeDoc.read_output out2 err2 = Ok r2.
Proof.
  intros t input.
  unfold CreateClaudeDoc.main, CreateClaudeDoc.main_with,
    CreateClaudeDoc.send_mcp_request, start, open_read, Popen, communicate,
    perform, bind, try_except, lift, ret, expect_text, expect_output.
  repeat (create_doc_run;
          match goal with
          | |- context [match ?x with _ => _ end] =>
              lazymatch x with
              | context [match _ with _ => _ end] => fail
              | _ => first [is_var x; destruct x | destruct x eqn:?]
              end
          end).
  all: create_doc_run.
  all: intros H; cbn [In] in H.
  all: repeat match goal with
              | H : _ \/ _ |- _ => destruct H as [H|H]
              | H : False |- _ => destruct H
              end; try discriminate.
  all: match goal with
       | H : ECommunicate _ _ = ECommunicate _ _ |- _ => injection H as <-
       end.
  all: repeat match goal with
              | H : negb _ = false |- _ => apply negb_false_iff in H
              end.
  all: do 6 eexists; split; [reflexivity|];
       repeat (split; [eassumption|]);
       do 4 eexists; split; [reflexivity | eassumption].
Qed.

Lemma X7_witness :
  exists md id items content result r2,
    CreateClaudeDoc.request_str
      (CreateClaudeDoc.build_request (lit "tools/call")
         (CreateClaudeDoc.format_params (JStr (lit "X"))
            (JStr (lit "# CLAUDE.md"))))
    = CreateClaudeDoc.request_str
        (CreateClaudeDoc.build_request (lit "tools/call")
           (CreateClaudeDoc.format_params id (JStr md)))
    /\ truthy id = true
    /\ CreateClaudeDoc.document_id_loop items = Ok id
    /\ iter content = Ok items
    /\ get result (lit "content") (JArr []) = Ok content
    /\ get r2 (lit "result") (JObj []) = Ok result
    /\ exists first out2 err2 rest,
        create_doc_tape
        = RText md :: RDone :: first :: RDone :: ROutput out2 err2 :: rest
        /\ CreateClaudeDoc.read_output out2 err2 = Ok r2.
Proof.
  apply (X7_create_doc_format_request create_doc_tape).
  vm_compute. do 6 right. left. reflexivity.
Defined.

End CreateDocTrace.

(* ===================================================================== *)
(** * Failures before the first request                                   *)
(* ===================================================================== *)

Section BeforeTheFirstRequest.
Import Py Json IO Log Samples.

(** X4.  Reading CLAUDE.md.  Both scripts return 1 when the file is
    missing, and start no child; test_mcp.py does the same when the file
    is empty, while create_claude_doc.py goes on and starts its first
    child.  [FileNotFoundError] is the only exception of the read that is
    handled: any other one leaves [main], and no child is started. *)
Theorem X4_claude_md_missing_or_empty :
  forall t,
    CreateClaudeDoc.main (start (RRaise FileNotFoundError :: t))
    = (Ok 1%Z, World t [EOpen] 0)
    /\ TestMcp.main (start (RRaise FileNotFoundError :: t))
       = (Ok 1%Z, World t [EOpen] 0)
    /\ TestMcp.main (start (RText [] :: t)) = (Ok 1%Z, World t [EOpen] 0)
    /\ exists more,
         log (snd (CreateClaudeDoc.main (start (RText [] :: RDone :: t))))
         = [EOpen; ESpawn 0] ++ more.
Proof.
  intros t. split; [reflexivity|]. split; [reflexivity|].
  split; [reflexivity|].
  unfold CreateClaudeDoc.main, CreateClaudeDoc.main_with,
    CreateClaudeDoc.send_mcp_request, start, open_read, Popen, communicate,
    perform, bind, try_except, lift, ret.
  repeat (create_doc_run;
          match goal with
          | |- context [match ?x with _ => _ end] =>
              lazymatch x with
              | context [match _ with _ => _ end] => fail
              | _ => destruct x
              end
          end).
  all: create_doc_run; eexists; reflexivity.
Qed.

(** X5.  Failures that no handler covers.  An exception of the read of
    CLAUDE.md other than [FileNotFoundError], and every exception of
    [Popen], [FileNotFoundError] for a missing server binary included,
    leaves [main] of create_claude_doc.py and of test_mcp.py: the handler
    for [FileNotFoundError] covers the read alone, and [Popen] of
    test_mcp.py stands before its [try] statement.  No child has been
    started then, and nothing is terminated.  An exception of
    [communicate] leaves [main] of create_claude_doc.py as well. *)
Theorem X5_failures_that_leave_main :
  forall (e : exn) (t : list reply),
    (e <> FileNotFoundError ->
     CreateClaudeDoc.main (start (RRaise e :: t)) = (Raise e, World t [EOpen] 0)
     /\ TestMcp.main (start (RRaise e :: t)) = (Raise e, World t [EOpen] 0))
    /\ (forall md,
           CreateClaudeDoc.main (start (RText md :: RRaise e :: t))
           = (Raise e, World t [EOpen] 0))
    /\ (forall c md,
           TestMcp.main (start (RText (c :: md) :: RRaise e :: t))
           = (Raise e, World t [EOpen] 0))
    /\ (forall md,
           CreateClaudeDoc.main (start (RText md :: RDone :: RRaise e :: t))
           = (Raise e,
              World t
                [EOpen; ESpawn 0;
                 ECommunicate 0
                   (CreateClaudeDoc.request_str
                      (CreateClaudeDoc.build_request
                         (lit "initialize") CreateClaudeDoc.init_params))]
                1)).
Proof.
  intros e t. split; [|split; [|split]].
  - intros He. destruct e; try congruence; split; reflexivity.
  - reflexivity.
  - reflexivity.
  - reflexivity.
Qed.

Lemma X5_witness :
  CreateClaudeDoc.main (start [RRaise OSError]) = (Raise OSError, World [] [EOpen] 0)
  /\ TestMcp.main (start [RRaise OSError]) = (Raise OSError, World [] [EOpen] 0).
Proof.
  apply (proj1 (X5_failures_that_leave_main OSError [])). discriminate.
Defined.

End BeforeTheFirstRequest.

(* ===================================================================== *)
(** * The run of test_mcp.py                                              *)
(* ===================================================================== *)

Section TestMcpTrace.
Import Py Json IO Log Trace TraceFacts RunFacts Samples.









Lemma guarded_returns (c : M Z) w :
  exists n,
    fst (try_except (try_except c TestMcp.is_KeyboardInterrupt (ret 1%Z))
                    is_Exception (ret 1%Z) w) = Ok n.
Proof.
  unfold try_except. destruct (c w) as [[n|e] w1]; [now exists n|].
  destruct e; cbn; now eexists.
Qed.

Lemma cleanup_raises process w e :
  fst (TestMcp.cleanup process w) = Raise e ->
  log (snd (TestMcp.cleanup process w))
  = log w ++ [ETerminate process; EWait process].
Proof.
  unfold TestMcp.cleanup, terminate, kill, wait, signal, bind, try_except,
    perform.
  cbn [tape log spawned snd].
  destruct (tape w) as [|[| | |[]] t]; cbn [expect_done fst snd log tape];
    cbn [TestMcp.is_TimeoutExpired fst snd log tape];
    rewrite <- ?app_assoc; try reflexivity; discriminate.
Qed.

(** X10.  An exception leaves [main] of test_mcp.py only from the read
    of CLAUDE.md, from [Popen], or from the wait of the [finally] clause
    (any exception of the wait but [TimeoutExpired]): when it comes from
    the wait, terminate has been sent and the wait is the last thing
    done.  No failure of the exchange with the child leaves [main]. *)
Theorem X10_test_mcp_escapes :
  forall t e,
    fst (TestMcp.main (start t)) = Raise e ->
    let l := log (snd (TestMcp.main (start t))) in
    l = [EOpen]
    \/ exists before, l = before ++ [ETerminate 0; EWait 0].
Proof.
  intros t e. cbv zeta.
  destruct t as [|[|md| |e'] t]; try (left; reflexivity).
  2:{ destruct e'; left; reflexivity. }
  destruct md as [|x s]; [left; reflexivity|].
  destruct t as [|[| | |e'] t]; try (left; reflexivity).
  set (body := TestMcp.try_body 0 (JStr (x :: s))).
  set (guarded := try_except
                    (try_except body TestMcp.is_KeyboardInterrupt (ret 1%Z))
                    is_Exception (ret 1%Z)).
  set (w0 := World t [EOpen; ESpawn 0] 1).
  change (TestMcp.main (start (RText (x :: s) :: RDone :: t)))
    with (try_finally guarded (TestMcp.cleanup 0) w0).
  unfold try_finally.
  destruct (guarded_returns body w0) as [n Hn]. fold guarded in Hn.
  destruct (guarded w0) as [r w1]. cbn [fst] in Hn. subst r.
  pose proof (cleanup_raises 0 w1) as Hc.
  destruct (TestMcp.cleanup 0 w1) as [[u|e'] w2]; cbn [fst snd] in *;
    [discriminate|].
  intros _. right. exists (log w1). now apply (Hc e').
Qed.

Lemma X10_witness :
  fst (TestMcp.main (start [RText (lit "# CLAUDE.md"); RDone])) = Raise OSError
  /\ (log (snd (TestMcp.main (start [RText (lit "# CLAUDE.md"); RDone])))
      = [EOpen]
      \/ exists before,
          log (snd (TestMcp.main (start [RText (lit "# CLAUDE.md"); RDone])))
          = before ++ [ETerminate 0; EWait 0]).
Proof.
  split; [reflexivity|].
  apply (X10_test_mcp_escapes [RText (lit "# CLAUDE.md"); RDone] OSError).
  reflexivity.
Defined.

End TestMcpTrace.

(* ===================================================================== *)
(** * The run of test_multi_account.py                                    *)
(* ===================================================================== *)

Ltac multi_account_run :=
  cbn [TestMultiAccount.test_accounts_tools TestMultiAccount.send_mcp_request
       IO.start IO.bind IO.Popen IO.stdin_write IO.stdin_flush
       IO.stdout_readline IO.terminate IO.signal IO.perform IO.lift IO.ret
       IO.tape IO.log IO.spawned IO.expect_done IO.expect_text
       fst snd app].

Section MultiAccountRun.
Import Py Json IO Log Trace TraceFacts JsonFacts Samples.



(** X12.  Whatever the outside world answers, test_multi_account.py does
    things in one order: for accounts_list, then accounts_details, then
    calendar_list, it starts a child, writes it the tools/call request
    with empty arguments, flushes, reads one line and sends terminate.  A
    run stops anywhere in this sequence when something raises, and never
    leaves it; a run of [test_accounts_tools] that returns has made all
    three calls, each on a child of its own, whatever the answers were:
    an error response or an unreadable line ends nothing. *)
Theorem X12_multi_account_trace :
  forall t,
    let final := TestMultiAccount.test_accounts_tools (start t) in
    begins (log (snd final)) multi_account_events
    /\ forall reports,
        fst final = Ok reports ->
        log (snd final) = multi_account_events
        /\ spawns (log (snd final)) = [0; 1; 2]%nat
        /\ length reports = 3%nat.
Proof.
  intros t. cbv zeta.
  unfold TestMultiAccount.test_accounts_tools,
    TestMultiAccount.send_mcp_request, start, Popen, stdin_write,
    stdin_flush, stdout_readline, terminate, signal, perform, bind, lift,
    ret, expect_done, expect_text.
  repeat (multi_account_run;
          match goal with
          | |- context [match ?x with _ => _ end] =>
              lazymatch x with
              | context [match _ with _ => _ end] => fail
              | _ => destruct x
              end
          end).
  all: multi_account_run.
  all: split; [ eexists; reflexivity | intros reports H; try discriminate ].
  all: injection H as <-; repeat split; reflexivity.
Qed.



End MultiAccountRun.

(* ===================================================================== *)
(** * What the document-id lookups raise                                  *)
(* ===================================================================== *)

Section LookupRaises.
Import Py Json IO JsonFacts Samples.





End LookupRaises.

(* ===================================================================== *)
(** * The characters of a request line                                    *)
(* ===================================================================== *)

Section RequestCharacters.
Import Py Json IO Plain RoundTrip Samples.

Lemma format_params_plain id md :
  plain id = true -> plain_str md = true ->
  plain (CreateClaudeDoc.format_params id (JStr md)) = true.
Proof.
  intros Hi Hm. cbn [CreateClaudeDoc.format_params plain forallb fst snd map].
  rewrite Hi. cbn [plain]. rewrite Hm. reflexivity.
Qed.

(** X15.  The request lines are plain ASCII whatever the text they
    carry: every character that [json.dumps] writes for a request is a
    printable ASCII character (from the space to the tilde), so the
    content of CLAUDE.md, with its newlines, quotes and characters
    beyond ASCII, travels inside the one line as escapes.  This holds for
    the request [send_mcp_request] builds in create_claude_doc.py and in
    test_multi_account.py, and for the format request of test_mcp.py,
    for values without floats. *)
Theorem X15_request_lines_are_printable_ascii :
  forall method params id md,
    plain_str method = true -> plain params = true ->
    plain id = true -> plain_str md = true ->
    Forall printable
      (json_dumps (CreateClaudeDoc.build_request method params))
    /\ Forall printable
         (json_dumps (TestMultiAccount.build_request method params))
    /\ Forall printable
         (json_dumps (CreateClaudeDoc.build_request (lit "tools/call")
                        (CreateClaudeDoc.format_params id (JStr md))))
    /\ Forall printable
         (json_dumps (TestMcp.format_request id (JStr md))).
Proof.
  intros method params id md Hm Hp Hi Hd.
  pose proof (format_params_plain id md Hi Hd) as Hf.
  split; [|split; [|split]]; apply json_dumps_printable.
  - now apply create_doc_request_plain.
  - now apply multi_account_request_plain.
  - now apply create_doc_request_plain.
  - cbn [TestMcp.format_request plain forallb fst snd map].
    rewrite Hf. reflexivity.
Qed.

Lemma X15_witness :
  Forall printable
    (json_dumps (TestMcp.format_request (JStr (lit "X"))
                   (JStr [35; 32; 233; 10; 8364; 128512]))).
Proof.
  apply (X15_request_lines_are_printable_ascii
           (lit "tools/call") JNull (JStr (lit "X"))
           [35; 32; 233; 10; 8364; 128512]);
    reflexivity.
Defined.

End RequestCharacters.

(* ===================================================================== *)
(** * A line and its stripped text decode alike                           *)
(* ===================================================================== *)

Ltac app_norm := repeat first [rewrite <- app_assoc | progress cbn [app]].

Module CutFacts.
Import Py Json Plain Cut.

Lemma skip_ws_nonws s c r : skip_ws s = c :: r -> is_ws c = false.
Proof.
  induction s as [|x s IH]; [discriminate|]. cbn [skip_ws].
  destruct (is_ws x) eqn:E; [exact IH|]. now intros [= <- _].
Qed.

Lemma skip_ws_split s :
  exists ws, s = ws ++ skip_ws s /\ forallb is_ws ws = true.
Proof.
  induction s as [|x s (ws & E & F)]; [now exists []|]. cbn [skip_ws].
  destruct (is_ws x) eqn:X.
  - exists (x :: ws). cbn [app forallb]. rewrite X, F. split; [|reflexivity].
    now f_equal.
  - now exists [].
Qed.

Lemma skip_ws_app ws s : forallb is_ws ws = true -> skip_ws (ws ++ s) = skip_ws s.
Proof.
  induction ws as [|x ws IH]; [reflexivity|]. cbn [forallb app skip_ws].
  intros H. apply andb_true_iff in H as [-> H]. now apply IH.
Qed.

Lemma skip_ws_keep c s : is_ws c = false -> skip_ws (c :: s) = c :: s.
Proof. intros H. cbn [skip_ws]. now rewrite H. Qed.

Lemma is_ws_isspace c : is_ws c = true -> isspace c = true.
Proof.
  unfold is_ws, isspace. intros H.
  repeat (apply orb_true_iff in H as [H|H]); apply N.eqb_eq in H; subst c;
    reflexivity.
Qed.

Lemma no_digit_prefix r' z : no_digit (r' ++ z) = true -> no_digit r' = true.
Proof. destruct r'; [reflexivity | exact (fun H => H)]. Qed.

Lemma span_digits_spec s d r :
  span_digits s = (d, r) ->
  s = d ++ r /\ Forall (fun c => is_digit c = true) d /\ no_digit r = true.
Proof.
  revert d r. induction s as [|c s IH]; intros d r H; cbn [span_digits] in H.
  - injection H as <- <-. repeat split. constructor.
  - destruct (is_digit c) eqn:D.
    + destruct (span_digits s) as [d' r'] eqn:E. injection H as <- <-.
      destruct (IH _ _ eq_refl) as (-> & F & N). repeat split; auto.
    + injection H as <- <-. repeat split; [constructor|].
      cbn [no_digit]. now rewrite D.
Qed.

Lemma span_digits_cut d rest :
  Forall (fun c => is_digit c = true) d -> no_digit rest = true ->
  span_digits (d ++ rest) = (d, rest).
Proof. intros F N. now apply RoundTrip.span_digits_app. Qed.

Lemma span_digits_none y : no_digit y = true -> span_digits y = ([], y).
Proof. intros N. exact (span_digits_cut [] y (Forall_nil _) N). Qed.

(** Text that is empty or ends with a digit. *)
Lemma digits_end d :
  Forall (fun c => is_digit c = true) d -> d <> [] ->
  exists d0 e, d = d0 ++ [e] /\ is_digit e = true.
Proof.
  intros F N. destruct (exists_last N) as (d0 & e & ->).
  exists d0, e. split; [reflexivity|].
  apply Forall_app in F as [_ F]. now inversion F.
Qed.

Lemma match_integer_spec s i r :
  match_integer s = Some (i, r) ->
  s = i ++ r
  /\ (exists c i', i = c :: i' /\ (c = 45 \/ is_digit c = true))
  /\ (exists i0 e, i = i0 ++ [e] /\ is_digit e = true)
  /\ forall y z, r = y ++ z -> match_integer (i ++ y) = Some (i, y).
Proof.
  unfold match_integer. intros H.
  assert (G : forall sign s1,
             match s1 with
             | c :: r0 =>
                 if c =? 48 then Some (sign ++ [48], r0)
                 else if is_digit c then
                        let (d, r') := span_digits r0 in Some (sign ++ c :: d, r')
                      else None
             | [] => None
             end = Some (i, r) ->
             exists b, i = sign ++ b /\ s1 = b ++ r
               /\ (exists c b', b = c :: b' /\ is_digit c = true)
               /\ (exists i0 e, i = i0 ++ [e] /\ is_digit e = true)
               /\ forall y z, r = y ++ z ->
                   match b ++ y with
                   | c :: r0 =>
                       if c =? 48 then Some (sign ++ [48], r0)
                       else if is_digit c then
                              let (d, r') := span_digits r0 in
                              Some (sign ++ c :: d, r')
                            else None
                   | [] => None
                   end = Some (i, y)).
  { intros sign [|c r0] E; [discriminate|].
    destruct (c =? 48) eqn:Z.
    - injection E as <- <-. apply N.eqb_eq in Z. subst c.
      exists [48]. repeat split; try reflexivity.
      + now exists 48, [].
      + now exists sign, 48.
    - destruct (is_digit c) eqn:D; [|discriminate].
      destruct (span_digits r0) as [d r'] eqn:S. injection E as <- <-.
      destruct (span_digits_spec _ _ _ S) as (-> & F & N).
      exists (c :: d). repeat split; try reflexivity.
      + now exists c, d.
      + destruct (digits_end (c :: d)) as (d0 & e & Ed & De);
          [now constructor | discriminate |].
        exists (sign ++ d0), e. rewrite Ed, app_assoc. now split.
      + intros y z ->. cbn [app]. rewrite Z, D.
        apply no_digit_prefix in N. now rewrite (span_digits_cut d y F N). }
  destruct s as [|c s0]; [discriminate|].
  destruct (c =? 45) eqn:M.
  - apply N.eqb_eq in M. subst c.
    destruct (G [45] s0 H) as (b & -> & -> & _ & L & K).
    split; [reflexivity|]. split; [exists 45, b; split; auto|].
    split; [exact L|]. intros y z E. cbn [app N.eqb Pos.eqb]. exact (K y z E).
  - destruct (G [] (c :: s0) H) as (b & -> & Eb & (c' & b' & -> & D) & L & K).
    cbn [app] in *. injection Eb as <- ->.
    split; [reflexivity|]. split; [exists c, b'; split; auto|].
    split; [exact L|]. intros y z E. cbn [app]. rewrite M.
    exact (K y z E).
Qed.

Lemma match_frac_spec s fr r :
  match_frac s = (fr, r) ->
  s = fr ++ r
  /\ (fr = [] \/ exists f0 e, fr = f0 ++ [e] /\ is_digit e = true)
  /\ forall y z, r = y ++ z -> match_frac (fr ++ y) = (fr, y).
Proof.
  unfold match_frac. destruct s as [|c t].
  - intros [= <- <-]. split; [reflexivity|]. split; [now left|].
    intros [|? ?] z E; [reflexivity | discriminate].
  - destruct (c =? 46) eqn:P.
    + destruct (span_digits t) as [d r'] eqn:S.
      destruct (span_digits_spec _ _ _ S) as (-> & F & N).
      destruct d as [|x d].
      * intros [= <- <-]. split; [reflexivity|]. split; [now left|].
        intros [|c' y] z E; [reflexivity|]. cbn [app] in *.
        injection E as <- ->. rewrite P.
        apply no_digit_prefix in N.
        now rewrite (span_digits_none y N).
      * intros [= <- <-]. split; [reflexivity|].
        split.
        { right. destruct (digits_end (x :: d) F) as (d0 & e & Ed & De);
            [discriminate|].
          exists (c :: d0), e. rewrite Ed. now split. }
        intros y z ->. cbn [app]. rewrite P.
        apply no_digit_prefix in N.
        change (x :: d ++ y) with ((x :: d) ++ y).
        now rewrite (span_digits_cut (x :: d) y F N).
    + intros [= <- <-]. split; [reflexivity|]. split; [now left|].
      intros [|c' y] z E; [reflexivity|]. cbn [app] in *.
      injection E as <- ->. now rewrite P.
Qed.

Lemma match_exp_spec s ex r :
  match_exp s = (ex, r) ->
  s = ex ++ r
  /\ (ex = [] \/ exists e0 e, ex = e0 ++ [e] /\ is_digit e = true)
  /\ forall y z, r = y ++ z -> match_exp (ex ++ y) = (ex, y).
Proof.
  unfold match_exp at 1. destruct s as [|c t].
  - intros [= <- <-]. split; [reflexivity|]. split; [now left|].
    intros [|? ?] z E; [reflexivity | discriminate].
  - destruct ((c =? 101) || (c =? 69)) eqn:P.
    2:{ intros [= <- <-]. split; [reflexivity|]. split; [now left|].
        intros [|c' y] z E; [reflexivity|]. cbn [app] in *.
        injection E as <- ->. cbn [app]. unfold match_exp. now rewrite P. }
    destruct t as [|x r0].
    + cbn [span_digits]. intros [= <- <-]. split; [reflexivity|].
      split; [now left|].
      intros [|c' y] z E; [reflexivity|]. cbn [app] in E.
      injection E as <- E. destruct y; [|discriminate].
      cbn [app]. unfold match_exp. now rewrite P.
    + destruct ((x =? 45) || (x =? 43)) eqn:Sg.
      * destruct (span_digits r0) as [d r'] eqn:S.
        destruct (span_digits_spec _ _ _ S) as (-> & F & N).
        destruct d as [|x' d].
        { intros [= <- <-]. split; [reflexivity|]. split; [now left|].
          intros [|c' y] z E; [reflexivity|]. cbn [app] in E.
          injection E as <- E. cbn [app]. unfold match_exp. rewrite P.
          destruct y as [|x0 y]; [reflexivity|]. cbn [app] in E.
          injection E as <- ->. rewrite Sg.
          apply no_digit_prefix in N.
          now rewrite (span_digits_none y N). }
        intros [= <- <-]. split; [reflexivity|].
        split.
        { right. destruct (digits_end (x' :: d) F) as (d0 & e & Ed & De);
            [discriminate|].
          exists (c :: x :: d0), e. cbn [app]. rewrite Ed. now split. }
        intros y z ->. unfold match_exp. cbn [app]. rewrite P, Sg.
        apply no_digit_prefix in N.
        change (x' :: d ++ y) with ((x' :: d) ++ y).
        now rewrite (span_digits_cut (x' :: d) y F N).
      * destruct (span_digits (x :: r0)) as [d r'] eqn:S.
        destruct (span_digits_spec _ _ _ S) as (Es & F & N).
        destruct d as [|x' d].
        { intros [= <- <-]. split; [reflexivity|]. split; [now left|].
          cbn [app] in Es. subst r'.
          intros [|c' y] z E; [reflexivity|]. cbn [app] in E.
          injection E as <- E. cbn [app]. unfold match_exp. rewrite P.
          destruct y as [|x0 y]; [reflexivity|]. cbn [app] in E.
          injection E as <- ->. rewrite Sg.
          change (x :: y ++ z) with ((x :: y) ++ z) in N.
          apply no_digit_prefix in N.
          now rewrite (span_digits_none (x :: y) N). }
        intros [= <- <-]. cbn [app] in Es. injection Es as <- ->.
        split; [reflexivity|].
        split.
        { right. destruct (digits_end (x :: d) F) as (d0 & e & Ed & De);
            [discriminate|].
          exists (c :: d0), e. cbn [app]. rewrite Ed. now split. }
        intros y z ->. unfold match_exp. cbn [app]. rewrite P, Sg.
        apply no_digit_prefix in N.
        change (x :: d ++ y) with ((x :: d) ++ y).
        now rewrite (span_digits_cut (x :: d) y F N).
Qed.

Lemma digit_not_space c : is_digit c = true -> isspace c = false.
Proof.
  unfold is_digit. intros D. apply andb_true_iff in D as [L U].
  apply N.leb_le in L, U. unfold isspace.
  rewrite !orb_false_iff.
  repeat split;
    first [ apply N.eqb_neq; lia
          | apply andb_false_iff; left; apply N.leb_gt; lia
          | apply andb_false_iff; right; apply N.leb_gt; lia ].
Qed.

Lemma match_number_cut s x r :
  match_number s = Some (x, r) ->
  exists a,
    s = a ++ r
    /\ (exists c a', a = c :: a' /\ (c = 45 \/ is_digit c = true))
    /\ (exists a0 e, a = a0 ++ [e] /\ is_digit e = true)
    /\ forall r' z, r = r' ++ z -> match_number (a ++ r') = Some (x, r').
Proof.
  unfold match_number at 1.
  destruct (match_integer s) as [[i r0]|] eqn:I; [|discriminate].
  destruct (match_frac r0) as [fr r1] eqn:F.
  destruct (match_exp r1) as [ex r2] eqn:E.
  destruct (match_integer_spec _ _ _ I) as (-> & (c & i' & -> & Hc) & Li & Ki).
  destruct (match_frac_spec _ _ _ F) as (-> & Lf & Kf).
  destruct (match_exp_spec _ _ _ E) as (-> & Le & Ke).
  intros H.
  assert (R : r2 = r /\ x = match fr, ex with
                               | [], [] => JInt (int_of_text (c :: i'))
                               | _, _ => JFloat ((c :: i') ++ fr ++ ex)
                               end).
  { destruct fr, ex; injection H as <- <-; now split. }
  destruct R as [-> ->]. clear H.
  exists ((c :: i') ++ fr ++ ex). split; [now rewrite <- !app_assoc|].
  split; [exists c, (i' ++ fr ++ ex); split; [reflexivity | exact Hc]|].
  split.
  { destruct Le as [->|(e0 & e & -> & De)].
    - rewrite app_nil_r. destruct Lf as [->|(f0 & e & -> & De)].
      + rewrite app_nil_r. exact Li.
      + exists ((c :: i') ++ f0), e. rewrite app_assoc. now split.
    - exists ((c :: i') ++ fr ++ e0), e. rewrite !app_assoc. now split. }
  intros r' z ->. unfold match_number.
  rewrite <- !app_assoc.
  rewrite (Ki (fr ++ ex ++ r') z) by now rewrite <- !app_assoc.
  rewrite (Kf (ex ++ r') z) by now rewrite <- !app_assoc.
  rewrite (Ke r' z eq_refl).
  destruct fr, ex; reflexivity.
Qed.

(** ** Strings *)

Lemma scanstring_quote x : scanstring (34 :: x) = Some ([], x).
Proof. reflexivity. Qed.

Lemma scanstring_plain c x :
  (c =? 34) = false -> (c <? 32) = false -> (c =? 92) = false ->
  scanstring (c :: x) = push c (scanstring x).
Proof. intros A B C. cbn [scanstring]. now rewrite A, B, C. Qed.

Lemma scanstring_escape e x :
  (e =? 117) = false ->
  scanstring (92 :: e :: x)
  = match unescape e with
    | None => None
    | Some ch => push ch (scanstring x)
    end.
Proof. intros E. cbn [scanstring N.eqb N.ltb N.compare Pos.eqb Pos.compare
                      Pos.compare_cont]. now rewrite E. Qed.

Lemma low_escape_Some y u2 y' :
  low_escape y = Some (u2, y') ->
  exists a b c d,
    y = 92 :: 117 :: a :: b :: c :: d :: y'
    /\ decode_hex4 a b c d = Some u2
    /\ is_low_surrogate u2 = true.
Proof.
  destruct y as [|bs [|u [|a [|b [|c [|d y0]]]]]]; try discriminate.
  cbn [low_escape].
  destruct ((bs =? 92) && (u =? 117)) eqn:B; [|discriminate].
  apply andb_true_iff in B as [B1 B2].
  apply N.eqb_eq in B1, B2. subst bs u.
  destruct (decode_hex4 a b c d) as [uni2|] eqn:D; [|discriminate].
  destruct (is_low_surrogate uni2) eqn:L; [|discriminate].
  intros [= <- <-]. now exists a, b, c, d.
Qed.

Lemma low_escape_here a b c d y u2 :
  decode_hex4 a b c d = Some u2 -> is_low_surrogate u2 = true ->
  low_escape (92 :: 117 :: a :: b :: c :: d :: y) = Some (u2, y).
Proof.
  intros D L. cbn [low_escape N.eqb Pos.eqb andb]. now rewrite D, L.
Qed.

(** What follows the escape of a high surrogate decides between a pair
    and a character of its own. *)
Lemma scanstring_high a b c d uni y :
  decode_hex4 a b c d = Some uni -> is_high_surrogate uni = true ->
  scanstring (92 :: 117 :: a :: b :: c :: d :: y)
  = match low_escape y with
    | Some (uni2, y') =>
        push (65536 + N.lor (N.shiftl (uni - 55296) 10) (uni2 - 56320))
             (scanstring y')
    | None => push uni (scanstring y)
    end.
Proof.
  intros D H. rewrite RoundTrip.scanstring_u, D, H.
  destruct y as [|bs [|u r3]]; try reflexivity.
  destruct ((bs =? 92) && (u =? 117)) eqn:B.
  - apply andb_true_iff in B as [B1 B2].
    apply N.eqb_eq in B1, B2. subst bs u.
    destruct r3 as [|a2 [|b2 [|c2 [|d2 r4]]]]; try reflexivity.
    cbn [low_escape N.eqb Pos.eqb andb].
    rewrite RoundTrip.scanstring_u.
    destruct (decode_hex4 a2 b2 c2 d2) as [uni2|]; [|reflexivity].
    destruct (is_low_surrogate uni2); reflexivity.
  - destruct r3 as [|a2 [|b2 [|c2 [|d2 r4]]]]; cbn [low_escape];
      rewrite ?B; reflexivity.
Qed.

Lemma low_escape_cut a t r r' :
  (forall x, scanstring (a ++ x) = Some (t, x)) ->
  low_escape (a ++ r) = None -> low_escape (a ++ r') = None.
Proof.
  intros K N.
  destruct (low_escape (a ++ r')) as [[u2 y']|] eqn:S; [exfalso|reflexivity].
  apply low_escape_Some in S as (a2 & b2 & c2 & d2 & E & D & L).
  pose proof (K []) as K0. rewrite app_nil_r in K0. clear K.
  do 6 (match type of E with
        | ?p ++ _ = _ :: _ =>
            destruct p as [|? ?];
            [ cbn in K0; discriminate K0
            | cbn [app] in E; injection E as ? E; subst ]
        end).
  cbn [app] in N. rewrite (low_escape_here _ _ _ _ _ _ D L) in N.
  discriminate.
Qed.

Lemma push_cut {A} c (x : option (str * A)) t r :
  push c x = Some (t, r) -> exists t', x = Some (t', r) /\ t = c :: t'.
Proof.
  destruct x as [[t' r']|]; [|discriminate]. intros [= <- <-].
  now exists t'.
Qed.

(** The string scanner reads up to the closing quote, and what it makes
    of a string does not depend on the text behind that quote. *)
Lemma scanstring_cut s t r :
  scanstring s = Some (t, r) ->
  exists a0,
    s = (a0 ++ [34]) ++ r
    /\ forall x, scanstring ((a0 ++ [34]) ++ x) = Some (t, x).
Proof.
  remember (length s) as n eqn:Hn. revert s t r Hn.
  induction n as [n IH] using lt_wf_ind. intros s t r Hn H. subst n.
  assert (Rec : forall s' t',
             (length s' < length s)%nat ->
             scanstring s' = Some (t', r) ->
             exists a0, s' = (a0 ++ [34]) ++ r
                        /\ forall x, scanstring ((a0 ++ [34]) ++ x)
                                     = Some (t', x)).
  { intros s' t' L E. exact (IH _ L s' t' r eq_refl E). }
  clear IH.
  destruct s as [|c s1]; [discriminate|].
  destruct (c =? 34) eqn:Q.
  { apply N.eqb_eq in Q. subst c. rewrite scanstring_quote in H.
    injection H as <- <-. exists []. split; [reflexivity|].
    intros x. apply scanstring_quote. }
  destruct (c <? 32) eqn:Ctl.
  { cbn [scanstring] in H. rewrite Q, Ctl in H. discriminate. }
  destruct (c =? 92) eqn:B.
  2:{ rewrite (scanstring_plain _ _ Q Ctl B) in H.
      apply push_cut in H as (t' & H & ->).
      destruct (Rec s1 t') as (a0 & -> & K); [cbn [length]; lia | exact H |].
      exists (c :: a0). split; [reflexivity|]. intros x.
      cbn [app]. rewrite (scanstring_plain _ _ Q Ctl B).
      now rewrite K. }
  apply N.eqb_eq in B. subst c. clear Q Ctl.
  destruct s1 as [|e s2]; [discriminate|].
  destruct (e =? 117) eqn:U.
  2:{ rewrite (scanstring_escape _ _ U) in H.
      destruct (unescape e) as [ch|] eqn:Ue; [|discriminate].
      apply push_cut in H as (t' & H & ->).
      destruct (Rec s2 t') as (a0 & -> & K); [cbn [length]; lia | exact H |].
      exists (92 :: e :: a0). split; [reflexivity|]. intros x.
      cbn [app]. rewrite (scanstring_escape _ _ U), Ue.
      now rewrite K. }
  apply N.eqb_eq in U. subst e.
  destruct s2 as [|a [|b [|c [|d s6]]]]; try discriminate.
  destruct (decode_hex4 a b c d) as [uni|] eqn:D.
  2:{ rewrite RoundTrip.scanstring_u, D in H. discriminate. }
  destruct (is_high_surrogate uni) eqn:Hi.
  2:{ rewrite RoundTrip.scanstring_u, D, Hi in H.
      apply push_cut in H as (t' & H & ->).
      destruct (Rec s6 t') as (a0 & -> & K); [cbn [length]; lia | exact H |].
      exists (92 :: 117 :: a :: b :: c :: d :: a0).
      split; [reflexivity|]. intros x.
      cbn [app]. rewrite RoundTrip.scanstring_u, D, Hi.
      now rewrite K. }
  rewrite (scanstring_high _ _ _ _ _ _ D Hi) in H.
  destruct (low_escape s6) as [[uni2 y']|] eqn:Lo.
  - apply low_escape_Some in Lo as (a2 & b2 & c2 & d2 & -> & D2 & L2).
    apply push_cut in H as (t' & H & ->).
    destruct (Rec y' t') as (a0 & -> & K); [cbn [length]; lia | exact H |].
    exists (92 :: 117 :: a :: b :: c :: d
               :: 92 :: 117 :: a2 :: b2 :: c2 :: d2 :: a0).
    split; [reflexivity|]. intros x.
    cbn [app]. rewrite (scanstring_high _ _ _ _ _ _ D Hi).
    rewrite (low_escape_here _ _ _ _ _ _ D2 L2).
    now rewrite K.
  - apply push_cut in H as (t' & H & ->).
    destruct (Rec s6 t') as (a0 & E & K); [cbn [length]; lia | exact H |].
    exists (92 :: 117 :: a :: b :: c :: d :: a0).
    split; [cbn [app]; now rewrite E|]. intros x.
    rewrite E in Lo.
    cbn [app]. rewrite (scanstring_high _ _ _ _ _ _ D Hi).
    rewrite (low_escape_cut _ _ _ x K Lo).
    now rewrite K.
Qed.

(** ** Arrays and objects *)

Lemma solid_opens a :
  solid a -> exists c a', a = c :: a' /\ is_ws c = false.
Proof.
  intros [(c & a' & -> & Hc) _]. exists c, a'. split; [reflexivity|].
  destruct (is_ws c) eqn:W; [|reflexivity].
  apply is_ws_isspace in W. congruence.
Qed.

(** The text up to and with the next character that is no white space. *)
Lemma skip_ws_cut s c r :
  skip_ws s = c :: r ->
  exists ws,
    s = ws ++ c :: r
    /\ is_ws c = false
    /\ forall x, skip_ws (ws ++ c :: x) = c :: x.
Proof.
  intros H. destruct (skip_ws_split s) as (ws & E & F). rewrite H in E.
  pose proof (skip_ws_nonws _ _ _ H) as Hc.
  exists ws. split; [exact E|]. split; [exact Hc|].
  intros x. rewrite (skip_ws_app _ _ F). now apply skip_ws_keep.
Qed.

Lemma parse_elems_cut f :
  reads_locally (parse_value f) ->
  forall n s vs r,
    parse_elems (parse_value f) n s = Some (vs, r) ->
    exists a,
      s = a ++ r
      /\ (exists c a', a = c :: a' /\ is_ws c = false)
      /\ (exists a0, a = a0 ++ [93])
      /\ forall r' z, r = r' ++ z ->
          parse_elems (parse_value f) n (a ++ r') = Some (vs, r').
Proof.
  intros Hf. induction n as [|n IH]; intros s vs r H; [discriminate|].
  cbn [parse_elems] in H.
  destruct (parse_value f s) as [[v r1]|] eqn:E; [|discriminate].
  destruct (Hf _ _ _ E) as (a1 & -> & So & K1).
  destruct (solid_opens _ So) as (c1 & a1' & -> & Hc1).
  destruct (skip_ws r1) as [|c r2] eqn:W; [discriminate|].
  destruct (skip_ws_cut _ _ _ W) as (ws & -> & Hc & Kw).
  destruct (c =? 93) eqn:E93.
  { injection H as <- <-. apply N.eqb_eq in E93. subst c.
    exists ((c1 :: a1') ++ ws ++ [93]).
    split; [now app_norm|].
    split; [now exists c1, (a1' ++ ws ++ [93])|].
    split; [exists ((c1 :: a1') ++ ws); now app_norm|].
    intros r' z ->. cbn [parse_elems].
    match goal with
    | |- context [parse_value f ?X] =>
        replace X with ((c1 :: a1') ++ (ws ++ 93 :: r')) by (now app_norm)
    end.
    rewrite (K1 (ws ++ 93 :: r') z) by (now app_norm).
    rewrite Kw. reflexivity. }
  destruct (c =? 44) eqn:E44; [|discriminate].
  apply N.eqb_eq in E44. subst c.
  destruct (parse_elems (parse_value f) n (skip_ws r2)) as [[vs' r3]|] eqn:E2;
    [|discriminate].
  injection H as <- <-.
  destruct (IH _ _ _ E2) as (a3 & E3 & (c3 & a3' & -> & Hc3) & (a0 & L3) & K3).
  destruct (skip_ws_split r2) as (ws2 & Er2 & F2). rewrite E3 in Er2.
  subst r2.
  exists ((c1 :: a1') ++ ws ++ 44 :: ws2 ++ c3 :: a3').
  split; [now app_norm|].
  split; [now exists c1, (a1' ++ ws ++ 44 :: ws2 ++ c3 :: a3')|].
  split.
  { exists ((c1 :: a1') ++ ws ++ 44 :: ws2 ++ a0). rewrite L3.
    now app_norm. }
  intros r' z ->. cbn [parse_elems].
  match goal with
  | |- context [parse_value f ?X] =>
      replace X with ((c1 :: a1') ++ (ws ++ 44 :: ws2 ++ c3 :: a3' ++ r'))
        by (now app_norm)
  end.
  rewrite (K1 (ws ++ 44 :: ws2 ++ c3 :: a3' ++ r') z).
  2:{ now app_norm. }
  rewrite Kw. cbn [N.eqb Pos.eqb].
  rewrite (skip_ws_app _ _ F2), (skip_ws_keep _ _ Hc3).
  change (c3 :: a3' ++ r') with ((c3 :: a3') ++ r').
  rewrite (K3 r' z eq_refl). reflexivity.
Qed.

Lemma parse_members_cut f :
  reads_locally (parse_value f) ->
  forall n s kvs r,
    parse_members (parse_value f) n s = Some (kvs, r) ->
    exists a,
      s = a ++ r
      /\ (exists a', a = 34 :: a')
      /\ (exists a0, a = a0 ++ [125])
      /\ forall r' z, r = r' ++ z ->
          parse_members (parse_value f) n (a ++ r') = Some (kvs, r').
Proof.
  intros Hf. induction n as [|n IH]; intros s kvs r H; [discriminate|].
  cbn [parse_members] in H.
  destruct s as [|q r0]; [discriminate|].
  destruct (q =? 34) eqn:Eq; [|discriminate].
  apply N.eqb_eq in Eq. subst q.
  destruct (scanstring r0) as [[k r1]|] eqn:Ek; [|discriminate].
  destruct (scanstring_cut _ _ _ Ek) as (ak & -> & Kk).
  destruct (skip_ws r1) as [|c r2] eqn:W1; [discriminate|].
  destruct (skip_ws_cut _ _ _ W1) as (ws1 & -> & _ & Kw1).
  destruct (c =? 58) eqn:Ec; [|discriminate].
  apply N.eqb_eq in Ec. subst c.
  destruct (parse_value f (skip_ws r2)) as [[v r3]|] eqn:Ev; [|discriminate].
  destruct (Hf _ _ _ Ev) as (av & E2 & So & Kv).
  destruct (solid_opens _ So) as (cv & av' & -> & Hcv).
  destruct (skip_ws_split r2) as (ws2 & Er2 & F2). rewrite E2 in Er2.
  subst r2. clear E2.
  destruct (skip_ws r3) as [|d r4] eqn:W3; [discriminate|].
  destruct (skip_ws_cut _ _ _ W3) as (ws3 & -> & _ & Kw3).
  destruct (d =? 125) eqn:E125.
  { injection H as <- <-. apply N.eqb_eq in E125. subst d.
    exists (34 :: (ak ++ [34]) ++ ws1 ++ 58 :: ws2 ++ (cv :: av')
               ++ ws3 ++ [125]).
    split; [now app_norm|].
    split; [now eexists|].
    split.
    { exists (34 :: (ak ++ [34]) ++ ws1 ++ 58 :: ws2 ++ (cv :: av') ++ ws3).
      now app_norm. }
    intros r' z ->. cbn [app parse_members N.eqb Pos.eqb].
    match goal with
    | |- context [scanstring ?X] =>
        replace X with ((ak ++ [34])
                          ++ (ws1 ++ 58 :: ws2 ++ (cv :: av')
                                ++ ws3 ++ 125 :: r'))
          by (now app_norm)
    end.
    rewrite Kk, Kw1. cbn [N.eqb Pos.eqb].
    rewrite (skip_ws_app _ _ F2). cbn [app].
    rewrite (skip_ws_keep _ _ Hcv).
    change (cv :: av' ++ ws3 ++ 125 :: r')
      with ((cv :: av') ++ (ws3 ++ 125 :: r')).
    rewrite (Kv (ws3 ++ 125 :: r') z) by (now app_norm).
    rewrite Kw3. reflexivity. }
  destruct (d =? 44) eqn:E44; [|discriminate].
  apply N.eqb_eq in E44. subst d.
  destruct (parse_members (parse_value f) n (skip_ws r4)) as [[kvs' r5]|] eqn:E5;
    [|discriminate].
  injection H as <- <-.
  destruct (IH _ _ _ E5) as (a5 & E4 & (a5' & ->) & (a0 & L5) & K5).
  destruct (skip_ws_split r4) as (ws4 & Er4 & F4). rewrite E4 in Er4.
  subst r4. clear E4.
  exists (34 :: (ak ++ [34]) ++ ws1 ++ 58 :: ws2 ++ (cv :: av')
             ++ ws3 ++ 44 :: ws4 ++ 34 :: a5').
  split; [now app_norm|].
  split; [now eexists|].
  split.
  { exists (34 :: (ak ++ [34]) ++ ws1 ++ 58 :: ws2 ++ (cv :: av')
               ++ ws3 ++ 44 :: ws4 ++ a0).
    rewrite L5. now app_norm. }
  intros r' z ->. cbn [app parse_members N.eqb Pos.eqb].
  match goal with
  | |- context [scanstring ?X] =>
      replace X with ((ak ++ [34])
                        ++ (ws1 ++ 58 :: ws2 ++ (cv :: av')
                              ++ ws3 ++ 44 :: ws4 ++ (34 :: a5') ++ r'))
        by (now app_norm)
  end.
  rewrite Kk, Kw1. cbn [N.eqb Pos.eqb].
  rewrite (skip_ws_app _ _ F2). cbn [app].
  rewrite (skip_ws_keep _ _ Hcv).
  change (cv :: av' ++ ws3 ++ 44 :: ws4 ++ 34 :: a5' ++ r')
    with ((cv :: av') ++ (ws3 ++ 44 :: ws4 ++ 34 :: a5' ++ r')).
  rewrite (Kv (ws3 ++ 44 :: ws4 ++ 34 :: a5' ++ r') z) by (now app_norm).
  rewrite Kw3. cbn [N.eqb Pos.eqb].
  rewrite (skip_ws_app _ _ F4).
  rewrite (skip_ws_keep 34) by reflexivity.
  change (34 :: a5' ++ r') with ((34 :: a5') ++ r').
  rewrite (K5 r' z eq_refl). reflexivity.
Qed.

(** ** Values *)

Lemma strip_prefix_spec p s r : strip_prefix p s = Some r -> s = p ++ r.
Proof.
  revert s. induction p as [|x p IH]; intros s H; cbn [strip_prefix] in H.
  - now injection H as <-.
  - destruct s as [|y s]; [discriminate|].
    destruct (x =? y) eqn:E; [|discriminate].
    apply N.eqb_eq in E. subst y. cbn [app]. f_equal. now apply IH.
Qed.

Lemma parse_value_string f x :
  parse_value (S f) (34 :: x)
  = match scanstring x with
    | Some (t, r') => Some (JStr t, r')
    | None => None
    end.
Proof. reflexivity. Qed.

Lemma parse_value_object f x :
  parse_value (S f) (123 :: x)
  = match skip_ws x with
    | d :: r' =>
        if d =? 125 then Some (JObj [], r')
        else
          match parse_members (parse_value f) f (skip_ws x) with
          | Some (kvs, r'') => Some (JObj (dict_of_pairs kvs), r'')
          | None => None
          end
    | [] => None
    end.
Proof. reflexivity. Qed.

Lemma parse_value_array f x :
  parse_value (S f) (91 :: x)
  = match skip_ws x with
    | d :: r' =>
        if d =? 93 then Some (JArr [], r')
        else
          match parse_elems (parse_value f) f (skip_ws x) with
          | Some (vs, r'') => Some (JArr vs, r'')
          | None => None
          end
    | [] => None
    end.
Proof. reflexivity. Qed.

(** A word of the language, read as such. *)
Lemma literal_cut f (word : string) v s r :
  (forall x, parse_value (S f) (lit word ++ x) = Some (v, x)) ->
  solid (lit word) ->
  strip_prefix (lit word) s = Some r ->
  exists a,
    s = a ++ r /\ solid a
    /\ forall r' z, r = r' ++ z -> parse_value (S f) (a ++ r') = Some (v, r').
Proof.
  intros K So H. apply strip_prefix_spec in H. exists (lit word).
  split; [exact H|]. split; [exact So|]. intros r' z _. apply K.
Qed.

Lemma solid_word c a e :
  isspace c = false -> isspace e = false -> solid (c :: a ++ [e]).
Proof.
  intros Hc He. split; [now exists c, (a ++ [e]) | now exists (c :: a), e].
Qed.

Theorem parse_value_cut f : reads_locally (parse_value f).
Proof.
  induction f as [|f IH]; intros s v r H; [discriminate|].
  destruct s as [|c r0]; [discriminate|].
  destruct (c =? 34) eqn:E34.
  { apply N.eqb_eq in E34. subst c. rewrite parse_value_string in H.
    destruct (scanstring r0) as [[t r1]|] eqn:Es; [|discriminate].
    injection H as <- <-.
    destruct (scanstring_cut _ _ _ Es) as (a0 & -> & K).
    exists (34 :: a0 ++ [34]). split; [reflexivity|].
    split; [now apply solid_word|].
    intros r' z _. cbn [app]. rewrite parse_value_string.
    now rewrite K. }
  destruct (c =? 123) eqn:E123.
  { apply N.eqb_eq in E123. subst c. rewrite parse_value_object in H.
    destruct (skip_ws r0) as [|d r1] eqn:W; [discriminate|].
    destruct (skip_ws_cut _ _ _ W) as (ws & Er0 & Hd & Kw).
    destruct (d =? 125) eqn:E125.
    { injection H as <- <-. apply N.eqb_eq in E125. subst d r0.
      exists (123 :: ws ++ [125]). split; [now app_norm|].
      split; [now apply solid_word|].
      intros r' z _. app_norm. rewrite parse_value_object, Kw.
      reflexivity. }
    destruct (parse_members (parse_value f) f (d :: r1)) as [[kvs r2]|] eqn:Em;
      [|discriminate].
    injection H as <- <-.
    destruct (parse_members_cut f IH _ _ _ _ Em)
      as (am & Eam & (am' & ->) & (a0 & L) & Km).
    cbn [app] in Eam. injection Eam as -> ->. subst r0.
    exists (123 :: ws ++ 34 :: am'). split; [now app_norm|].
    split.
    { split; [exists 123, (ws ++ 34 :: am'); now split|].
      exists (123 :: ws ++ a0), 125.
      split; [|reflexivity]. app_norm. f_equal. f_equal.
      exact L. }
    intros r' z ->. app_norm. rewrite parse_value_object, Kw.
    cbn [N.eqb Pos.eqb].
    change (34 :: am' ++ r') with ((34 :: am') ++ r').
    now rewrite (Km r' z eq_refl). }
  destruct (c =? 91) eqn:E91.
  { apply N.eqb_eq in E91. subst c. rewrite parse_value_array in H.
    destruct (skip_ws r0) as [|d r1] eqn:W; [discriminate|].
    destruct (skip_ws_cut _ _ _ W) as (ws & Er0 & Hd & Kw).
    destruct (d =? 93) eqn:E93.
    { injection H as <- <-. apply N.eqb_eq in E93. subst d r0.
      exists (91 :: ws ++ [93]). split; [now app_norm|].
      split; [now apply solid_word|].
      intros r' z _. app_norm. rewrite parse_value_array, Kw.
      reflexivity. }
    destruct (parse_elems (parse_value f) f (d :: r1)) as [[vs r2]|] eqn:Em;
      [|discriminate].
    injection H as <- <-.
    destruct (parse_elems_cut f IH _ _ _ _ Em)
      as (am & Eam & (c3 & am' & -> & Hc3) & (a0 & L) & Km).
    cbn [app] in Eam. injection Eam as -> ->. subst r0.
    exists (91 :: ws ++ c3 :: am'). split; [now app_norm|].
    split.
    { split; [exists 91, (ws ++ c3 :: am'); now split|].
      exists (91 :: ws ++ a0), 93.
      split; [|reflexivity]. app_norm. f_equal. f_equal.
      exact L. }
    intros r' z ->. app_norm. rewrite parse_value_array, Kw.
    rewrite E93.
    change (c3 :: am' ++ r') with ((c3 :: am') ++ r').
    now rewrite (Km r' z eq_refl). }
  cbn [parse_value] in H. rewrite E34, E123, E91 in H.
  destruct (strip_prefix (lit "null") (c :: r0)) as [r1|] eqn:P1.
  { injection H as <- <-.
    apply (literal_cut f "null" JNull _ _ (fun x => eq_refl)); [|exact P1].
    exact (solid_word 110 [117; 108] 108 eq_refl eq_refl). }
  destruct (strip_prefix (lit "true") (c :: r0)) as [r2|] eqn:P2.
  { injection H as <- <-.
    apply (literal_cut f "true" (JBool true) _ _ (fun x => eq_refl));
      [|exact P2].
    exact (solid_word 116 [114; 117] 101 eq_refl eq_refl). }
  destruct (strip_prefix (lit "false") (c :: r0)) as [r3|] eqn:P3.
  { injection H as <- <-.
    apply (literal_cut f "false" (JBool false) _ _ (fun x => eq_refl));
      [|exact P3].
    exact (solid_word 102 [97; 108; 115] 101 eq_refl eq_refl). }
  destruct (match_number (c :: r0)) as [[x rx]|] eqn:Pn.
  { injection H as <- <-.
    destruct (match_number_cut _ _ _ Pn)
      as (a & Ea & (c' & a' & -> & Hc') & (a0 & e & La & De) & K).
    exists (c' :: a'). split; [exact Ea|].
    split.
    { split.
      - exists c', a'. split; [reflexivity|].
        destruct Hc' as [->|Hd]; [reflexivity | now apply digit_not_space].
      - exists a0, e. split; [exact La | now apply digit_not_space]. }
    intros r' z E. cbn [app].
    apply (RoundTrip.parse_value_number f c' (a' ++ r') _ Hc').
    exact (K r' z E). }
  destruct (strip_prefix (lit "NaN") (c :: r0)) as [r5|] eqn:P5.
  { injection H as <- <-.
    apply (literal_cut f "NaN" (JFloat (lit "NaN")) _ _ (fun x => eq_refl));
      [|exact P5].
    exact (solid_word 78 [97] 78 eq_refl eq_refl). }
  destruct (strip_prefix (lit "Infinity") (c :: r0)) as [r6|] eqn:P6.
  { injection H as <- <-.
    apply (literal_cut f "Infinity" (JFloat (lit "Infinity")) _ _
             (fun x => eq_refl)); [|exact P6].
    exact (solid_word 73 [110; 102; 105; 110; 105; 116] 121 eq_refl eq_refl). }
  destruct (strip_prefix (lit "-Infinity") (c :: r0)) as [r7|] eqn:P7;
    [|discriminate].
  injection H as <- <-.
  apply (literal_cut f "-Infinity" (JFloat (lit "-Infinity")) _ _
           (fun x => eq_refl)); [|exact P7].
  exact (solid_word 45 [73; 110; 102; 105; 110; 105; 116] 121 eq_refl eq_refl).
Qed.

(** ** [str.strip] *)

Lemma lstrip_app ws s :
  forallb isspace ws = true -> lstrip (ws ++ s) = lstrip s.
Proof.
  induction ws as [|x ws IH]; [reflexivity|]. cbn [forallb app lstrip].
  intros H. apply andb_true_iff in H as [-> H]. now apply IH.
Qed.

Lemma lstrip_keep c s : isspace c = false -> lstrip (c :: s) = c :: s.
Proof. intros H. cbn [lstrip]. now rewrite H. Qed.

Lemma ws_spaces ws : forallb is_ws ws = true -> forallb isspace ws = true.
Proof.
  rewrite !forallb_forall. intros H x Hx. apply is_ws_isspace. now apply H.
Qed.

Lemma spaces_rev ws : forallb isspace ws = true -> forallb isspace (rev ws) = true.
Proof.
  rewrite !forallb_forall. intros H x Hx. apply H. now apply in_rev.
Qed.

(** [strip] takes the white space around a solid text away, and nothing
    else. *)
Lemma strip_solid ws1 a ws2 :
  forallb isspace ws1 = true -> forallb isspace ws2 = true -> solid a ->
  strip (ws1 ++ a ++ ws2) = a.
Proof.
  intros F1 F2 [(c & a' & Ea & Hc) (a0 & e & Ee & He)].
  unfold strip. rewrite (lstrip_app _ _ F1).
  rewrite Ea. cbn [app]. rewrite (lstrip_keep _ _ Hc).
  change (c :: a' ++ ws2) with ((c :: a') ++ ws2). rewrite <- Ea.
  rewrite rev_app_distr, (lstrip_app _ _ (spaces_rev _ F2)).
  rewrite Ee at 1. rewrite rev_app_distr. cbn [rev app].
  rewrite (lstrip_keep _ _ He).
  change (e :: rev a0) with (rev [e] ++ rev a0).
  rewrite <- rev_app_distr, rev_involutive. now symmetry.
Qed.

(** What [json.loads] makes of a text it accepts, it makes of the
    stripped text as well. *)
Theorem json_loads_strip line v :
  json_loads line = Ok v -> json_loads (strip line) = Ok v.
Proof.
  unfold json_loads at 1. intros H.
  destruct (parse_value (S (length line)) (skip_ws line)) as [[v' r]|] eqn:P;
    [|discriminate].
  destruct (skip_ws r) eqn:W; [|discriminate]. injection H as ->.
  destruct (parse_value_cut _ _ _ _ P) as (a & Ea & So & K).
  specialize (K [] r eq_refl). rewrite app_nil_r in K.
  destruct (skip_ws_split line) as (ws1 & El & F1). rewrite Ea in El.
  destruct (skip_ws_split r) as (ws2 & Er & F2). rewrite W, app_nil_r in Er.
  subst ws2.
  assert (Es : strip line = a).
  { rewrite El. apply strip_solid; [now apply ws_spaces.. | exact So]. }
  rewrite Es. unfold json_loads.
  destruct (solid_opens _ So) as (c & a' & -> & Hc).
  rewrite (skip_ws_keep _ _ Hc).
  destruct (FuelFacts.parse_value_adequate _ _ _ _ K) as [_ G].
  rewrite (G (S (length (c :: a')))) by (cbn [length]; lia).
  reflexivity.
Qed.

End CutFacts.

Section StrippedLines.
Import Py Json IO JsonFacts CutFacts Samples.

(** X16.  The three clients agree on every line that the strictest of
    them accepts.  test_multi_account.py hands the line as read to
    [json.loads]; test_mcp.py and create_claude_doc.py strip it first.
    Whatever value the first decodes from a line, the other two decode
    from the same line, the stripping changing nothing that [json.loads]
    accepts.  The converse does not hold: a line with a form feed before
    the value is a parse failure for the first and a value for the
    others. *)
Theorem X16_clients_agree_on_decoded_lines :
  (forall line v,
      json_loads line = Ok v ->
      TestMultiAccount.parse_response line = Ok v
      /\ TestMcp.read_line line = Ok v
      /\ CreateClaudeDoc.read_output line [] = Ok v)
  /\ (TestMultiAccount.parse_response [12; 123; 125; 10]
      = Ok (JObj [(lit "error",
                   TestMultiAccount.parse_failure [12; 123; 125; 10])])
      /\ TestMcp.read_line [12; 123; 125; 10] = Ok (JObj [])
      /\ CreateClaudeDoc.read_output [12; 123; 125; 10] [] = Ok (JObj [])).
Proof.
  split; [|repeat split; reflexivity].
  intros line v H. pose proof (json_loads_strip _ _ H) as Hs.
  split; [|split].
  - unfold TestMultiAccount.parse_response. now rewrite H.
  - unfold TestMcp.read_line. now rewrite (loads_nonempty _ _ Hs).
  - unfold CreateClaudeDoc.read_output. cbn [truthy]. now rewrite Hs.
Qed.

Lemma X16_witness :
  TestMultiAccount.parse_response empty_result_line
  = Ok (JObj [(lit "jsonrpc", JStr (lit "2.0")); (lit "id", JInt 1);
              (lit "result", JObj [])])
  /\ TestMcp.read_line empty_result_line
     = Ok (JObj [(lit "jsonrpc", JStr (lit "2.0")); (lit "id", JInt 1);
                 (lit "result", JObj [])])
  /\ CreateClaudeDoc.read_output empty_result_line []
     = Ok (JObj [(lit "jsonrpc", JStr (lit "2.0")); (lit "id", JInt 1);
                 (lit "result", JObj [])]).
Proof.
  apply (proj1 X16_clients_agree_on_decoded_lines empty_result_line).
  reflexivity.
Defined.

End StrippedLines.

(* ===================================================================== *)
(** * An initialize request that fails                                    *)
(* ===================================================================== *)

Ltac create_doc_step :=
  cbn [CreateClaudeDoc.send_mcp_request IO.bind IO.Popen IO.communicate
       IO.perform IO.lift IO.ret IO.tape IO.log IO.spawned IO.expect_output
       fst snd negb app].

Section FailedInitialize.
Import Py Json IO Log Trace TraceFacts RunFacts Samples.

Lemma read_response_world process w :
  snd (TestMcp.read_response process w)
  = World (tl (tape w)) (log w ++ [EReadline process]) (spawned w).
Proof.
  destruct w as [t lg n].
  unfold TestMcp.read_response, try_except, bind, stdout_readline, perform.
  cbn [tape log spawned].
  destruct t as [|r t]; [reflexivity|]. cbn [tl].
  destruct (expect_text r) as [line|e]; cbn [lift].
  - destruct (TestMcp.read_line line) as [v|e]; [reflexivity|].
    destruct (is_Exception e); reflexivity.
  - destruct (is_Exception e); reflexivity.
Qed.

(** What [read_response] returns is decided by the reply to its read. *)
Lemma read_response_reply process x t lg n :
  fst (TestMcp.read_response process (World (x :: t) lg n))
  = fst (TestMcp.read_response 0 (start [x])).
Proof.
  unfold TestMcp.read_response, try_except, bind, stdout_readline, perform,
    start.
  cbn [tape log spawned].
  destruct (expect_text x) as [line|e]; cbn [lift].
  - destruct (TestMcp.read_line line) as [v|e]; [reflexivity|].
    destruct (is_Exception e); reflexivity.
  - destruct (is_Exception e); reflexivity.
Qed.

Lemma not_accepted_failed r :
  ~ Spec.accepted r ->
  CreateClaudeDoc.failed r = Ok true \/ exists e, CreateClaudeDoc.failed r = Raise e.
Proof.
  intros H. destruct (CreateClaudeDoc.failed r) as [[|]|e] eqn:F.
  - now left.
  - apply failed_accepted in F. contradiction.
  - right. now exists e.
Qed.

(** X17.  An initialize request that fails ends the run: no other
    request is sent.  In create_claude_doc.py, when what
    [send_mcp_request] makes of the first child's output is not accepted
    (it is [None], falsy, or has an [error] member), no second child is
    started and [main] does not return 0.  In test_mcp.py, when the
    response read for the initialize request is not accepted, or the
    read is interrupted, nothing more is written to the child: neither
    the initialized notification nor any tool call, and the child is
    released. *)
Theorem X17_failed_initialize_ends_the_run :
  (forall md out err t r,
      CreateClaudeDoc.read_output out err = Ok r ->
      ~ Spec.accepted r ->
      let final :=
        CreateClaudeDoc.main
          (start (RText md :: RDone :: ROutput out err :: t)) in
      snd final
      = World t
          [EOpen; ESpawn 0;
           ECommunicate 0
             (CreateClaudeDoc.request_str
                (CreateClaudeDoc.build_request
                   (lit "initialize") CreateClaudeDoc.init_params))]
          1
      /\ fst final <> Ok 0%Z)
  /\ (forall c md x t,
         (forall r, fst (TestMcp.read_response 0 (start [x])) = Ok r ->
                    ~ Spec.accepted r) ->
         log (snd (TestMcp.main
                     (start (RText (c :: md) :: RDone
                               :: RDone :: RDone :: RDone :: x :: t))))
         = [EOpen; ESpawn 0; ESleep;
            EWrite 0 (line TestMcp.init_request); EFlush 0; EReadline 0]
           ++ release 0 t).
Proof.
  split.
  - intros md out err t r Hr Ha. cbv zeta.
    unfold CreateClaudeDoc.main, start, open_read.
    cbn [bind try_except perform tape log spawned expect_text ret fst snd].
    unfold CreateClaudeDoc.main_with. create_doc_step. rewrite Hr.
    create_doc_step.
    destruct (not_accepted_failed r Ha) as [F|[e F]]; rewrite F;
      create_doc_step.
    + destruct (CreateClaudeDoc.report_failure r) as [n|e] eqn:R;
        cbn [fst snd]; (split; [reflexivity|]); [|discriminate].
      intros [= ->].
      apply (report_failure_not_0 r (start []) (start [])).
      unfold lift. now rewrite R.
    + split; [reflexivity | discriminate].
  - intros c md x t Hx.
    set (body := TestMcp.try_body 0 (JStr (c :: md))).
    set (guarded := try_except
                      (try_except body TestMcp.is_KeyboardInterrupt (ret 1%Z))
                      is_Exception (ret 1%Z)).
    match goal with
    | |- context [TestMcp.main (start (_ :: _ :: ?t0))] =>
        set (w0 := World t0 [EOpen; ESpawn 0] 1);
        change (TestMcp.main (start (RText (c :: md) :: RDone :: t0)))
          with (try_finally guarded (TestMcp.cleanup 0) w0)
    end.
    assert (Ew : snd (guarded w0) = snd (body w0))
      by (unfold guarded; now rewrite !try_except_ret_world).
    assert (Eb : snd (body w0)
                 = World t
                     [EOpen; ESpawn 0; ESleep;
                      EWrite 0 (line TestMcp.init_request); EFlush 0;
                      EReadline 0] 1).
    { unfold body, w0, TestMcp.try_body.
      rewrite (bind_run _ _ _ _ _ (sleep_run _ _ _)).
      rewrite (bind_run _ _ _ _ _ (send_request_run _ _ _ _ _)).
      unfold bind at 1.
      match goal with
      | |- context [TestMcp.read_response 0 ?w] =>
          pose proof (read_response_world 0 w) as Hw;
          pose proof (read_response_reply 0 x t (log w) (spawned w)) as Hf;
          cbn [tape log spawned] in Hf;
          destruct (TestMcp.read_response 0 w) as [[r|e] w1]
      end; cbn [fst snd tape log spawned tl] in Hw, Hf; subst w1;
        [|reflexivity].
      symmetry in Hf. specialize (Hx r Hf).
      unfold bind, lift.
      destruct (not_accepted_failed r Hx) as [F|[e F]];
        change TestMcp.failed with CreateClaudeDoc.failed; rewrite F;
        reflexivity. }
    unfold try_finally.
    destruct (guarded w0) as [res w1]. cbn [snd] in Ew. subst w1.
    destruct (cleanup_log 0 (snd (body w0))) as [Hc _].
    rewrite Eb in Hc. cbn [log tape] in Hc.
    rewrite Eb.
    destruct (TestMcp.cleanup 0 _) as [[u|e] w2]; exact Hc.
Qed.

Lemma X17_witness :
  log (snd (TestMcp.main
              (start (RText (lit "# CLAUDE.md") :: RDone
                        :: RDone :: RDone :: RDone
                        :: RText method_not_found_line :: [RDone]))))
  = [EOpen; ESpawn 0; ESleep;
     EWrite 0 (line TestMcp.init_request); EFlush 0; EReadline 0]
    ++ release 0 [RDone].
Proof.
  apply (proj2 X17_failed_initialize_ends_the_run
           35 (lit " CLAUDE.md") (RText method_not_found_line) [RDone]).
  intros r H. vm_compute in H. injection H as <-.
  intros [_ A]. vm_compute in A. discriminate.
Defined.

End FailedInitialize.
